(** * Planner/Executor workflow (LangGraph lab): shallow embedding

    The development follows the layout of the repository:
    - Python's [str] builtins used by [nodes.py]
      ([splitlines], [strip], [startswith], [in], [split], [isdigit]);
    - [state.py]: the [AgentState] record and the per-key channel policy;
    - [nodes.py]: [_parse_plan], [supervisor_node], [planner_node],
      [executor_node];
    - [graph.py]: the three-node graph and its conditional edge;
    - [agent.py]: [run_once], the streamed run from the initial state;
    - [tools.py]: [summarize_step].

    The language model is a parameter of the nodes that call it, and what
    the in-memory checkpointer holds for the thread is a parameter of
    [run_once]. Console output ([print]) is not modelled: it does not touch
    the state. *)

From Stdlib Require Import String Ascii DecimalString ZArith NArith Lia Bool List.
Import ListNotations.

Local Open Scope Z_scope.

(** ** Python strings *)

(** A Python [str] is a sequence of Unicode code points. *)
Definition str := list N.

(** An ASCII literal, read as code points. *)
Definition py (s : string) : str := map N_of_ascii (list_ascii_of_string s).
Arguments py s%_string.

Fixpoint str_eqb (a b : str) : bool :=
  match a, b with
  | [], [] => true
  | x :: a', y :: b' => N.eqb x y && str_eqb a' b'
  | _, _ => false
  end.

(** Truth value of a sequence: [bool(s)] is [len(s) != 0]. *)
Definition truthy {A} (l : list A) : bool :=
  match l with [] => false | _ :: _ => true end.

Definition in_ranges (tbl : list (N * N)) (c : N) : bool :=
  existsb (fun r => (fst r <=? c)%N && (c <=? snd r)%N) tbl.

(** Characters removed by [str.strip()] (CPython [_PyUnicode_IsWhitespace]). *)
Definition Py_UNICODE_ISSPACE : N -> bool :=
  in_ranges [(9, 13); (28, 32); (133, 133); (160, 160); (5760, 5760);
             (8192, 8202); (8232, 8233); (8239, 8239); (8287, 8287);
             (12288, 12288)]%N.

(** Line boundaries of [str.splitlines()] (CPython [_PyUnicode_IsLinebreak]). *)
Definition Py_UNICODE_ISLINEBREAK : N -> bool :=
  in_ranges [(10, 13); (28, 30); (133, 133); (8232, 8233)]%N.

(** Characters accepted by [str.isdigit()]: the digit property of the
    Unicode 14.0 character database shipped with CPython 3.11. *)
Definition Py_UNICODE_ISDIGIT : N -> bool :=
  in_ranges
    [(48, 57); (178, 179); (185, 185); (1632, 1641); (1776, 1785);
     (1984, 1993); (2406, 2415); (2534, 2543); (2662, 2671); (2790, 2799);
     (2918, 2927); (3046, 3055); (3174, 3183); (3302, 3311); (3430, 3439);
     (3558, 3567); (3664, 3673); (3792, 3801); (3872, 3881); (4160, 4169);
     (4240, 4249); (4969, 4977); (6112, 6121); (6160, 6169); (6470, 6479);
     (6608, 6618); (6784, 6793); (6800, 6809); (6992, 7001); (7088, 7097);
     (7232, 7241); (7248, 7257); (8304, 8304); (8308, 8313); (8320, 8329);
     (9312, 9320); (9332, 9340); (9352, 9360); (9450, 9450); (9461, 9469);
     (9471, 9471); (10102, 10110); (10112, 10120); (10122, 10130);
     (42528, 42537); (43216, 43225); (43264, 43273); (43472, 43481);
     (43504, 43513); (43600, 43609); (44016, 44025); (65296, 65305);
     (66720, 66729); (68160, 68163); (68912, 68921); (69216, 69224);
     (69714, 69722); (69734, 69743); (69872, 69881); (69942, 69951);
     (70096, 70105); (70384, 70393); (70736, 70745); (70864, 70873);
     (71248, 71257); (71360, 71369); (71472, 71481); (71904, 71913);
     (72016, 72025); (72784, 72793); (73040, 73049); (73120, 73129);
     (92768, 92777); (92864, 92873); (93008, 93017); (120782, 120831);
     (123200, 123209); (123632, 123641); (125264, 125273);
     (127232, 127242); (130032, 130041)]%N.

Fixpoint dropwhile {A} (p : A -> bool) (l : list A) : list A :=
  match l with
  | [] => []
  | x :: l' => if p x then dropwhile p l' else l
  end.

Definition lstrip (s : str) : str := dropwhile Py_UNICODE_ISSPACE s.
Definition rstrip (s : str) : str := rev (dropwhile Py_UNICODE_ISSPACE (rev s)).

(** [s.strip()] *)
Definition strip (s : str) : str := rstrip (lstrip s).

(** [s.splitlines()]: [cur] is the current line, most recent character
    first; a carriage return followed by a line feed is one boundary, and a
    boundary at the very end opens no further line. *)
Fixpoint splitlines_from (cur s : str) : list str :=
  match s with
  | [] => if truthy cur then [rev cur] else []
  | c :: rest =>
      if Py_UNICODE_ISLINEBREAK c then
        rev cur ::
          match rest with
          | d :: rest' =>
              if (c =? 13)%N && (d =? 10)%N
              then splitlines_from [] rest'
              else splitlines_from [] rest
          | [] => splitlines_from [] rest
          end
      else splitlines_from (c :: cur) rest
  end.

Definition splitlines (s : str) : list str := splitlines_from [] s.

(** [s.startswith(prefix)] *)
Fixpoint startswith (s prefix : str) : bool :=
  match prefix, s with
  | [], _ => true
  | p :: prefix', c :: s' => (c =? p)%N && startswith s' prefix'
  | _ :: _, [] => false
  end.

(** [sub in s] *)
Fixpoint contains (s sub : str) : bool :=
  startswith s sub ||
  match s with
  | [] => false
  | _ :: s' => contains s' sub
  end.

(** The text before and after the first occurrence of [sep] in [s]. *)
Fixpoint partition (s sep : str) : option (str * str) :=
  if startswith s sep then Some ([], skipn (length sep) s)
  else match s with
       | [] => None
       | c :: s' =>
           match partition s' sep with
           | Some (before, after) => Some (c :: before, after)
           | None => None
           end
       end.

(** [s.split(sep, 1)] for a non-empty [sep] *)
Definition split1 (s sep : str) : list str :=
  match partition s sep with
  | Some (before, after) => [before; after]
  | None => [s]
  end.

(** [s.isdigit()]: at least one character, all of them digits. *)
Definition isdigit (s : str) : bool := truthy s && forallb Py_UNICODE_ISDIGIT s.

(** [str(i)] for an [int] *)
Definition str_of_int (i : Z) : str := py (NilZero.string_of_int (Z.to_int i)).

(** ** Exceptions *)

Inductive exception := IndexError | KeyError | GraphRecursionError | ValueError.

Inductive result (A : Type) :=
| Ok (a : A)
| Raise (e : exception).
Arguments Ok {A} a.
Arguments Raise {A} e.

Definition bind {A B} (r : result A) (k : A -> result B) : result B :=
  match r with
  | Ok a => k a
  | Raise e => Raise e
  end.

Notation "x <- r ;; k" := (bind r (fun x => k))
  (at level 61, r at next level, right associativity).

(** [l[i]] with Python's negative indices. *)
Definition getitem {A} (l : list A) (i : Z) : result A :=
  let n := Z.of_nat (length l) in
  let j := if i <? 0 then i + n else i in
  if (0 <=? j) && (j <? n) then
    match nth_error l (Z.to_nat j) with
    | Some x => Ok x
    | None => Raise IndexError
    end
  else Raise IndexError.

(** [l[-1] if l else None] *)
Definition last_or_none {A} (l : list A) : option A :=
  match rev l with
  | [] => None
  | x :: _ => Some x
  end.


(** ** Messages (langchain_core.messages)

    Of a message the program uses its class, its [content] and its optional
    [name], the author tag. *)

Inductive message_class := system | human.

Record BaseMessage := {
  msg_class : message_class;
  content : str;
  name : option str
}.

Definition SystemMessage (content : str) : BaseMessage :=
  {| msg_class := system; content := content; name := None |}.

Definition HumanMessage (content : str) (name : option str) : BaseMessage :=
  {| msg_class := human; content := content; name := name |}.

(** ** state.py *)

(** [AgentState] is a total [TypedDict]: a state has all seven keys, so the
    defaults of the [state.get(key, default)] calls in the nodes are never
    taken. *)
Record AgentState := {
  messages : list BaseMessage;
  user_goal : str;
  plan : list str;
  current_step_index : Z;
  execution_log : list str;
  next_step : str;
  status : str
}.

(** The dictionary a node returns: a subset of the keys of [AgentState]. *)
Record Update := {
  upd_messages : option (list BaseMessage);
  upd_user_goal : option str;
  upd_plan : option (list str);
  upd_current_step_index : option Z;
  upd_execution_log : option (list str);
  upd_next_step : option str;
  upd_status : option str
}.

(** The reducer of the [messages] key. The messages this program builds
    carry no id; the reducer gives each a fresh one, so none of them replaces
    an earlier message and the new ones go to the end. *)
Definition add_messages (left right : list BaseMessage) : list BaseMessage :=
  left ++ right.

(** A key without a reducer keeps the last value written to it. *)
Definition last_value {A} (old : A) (new : option A) : A :=
  match new with
  | Some v => v
  | None => old
  end.

(** How the graph folds a node's update into the state, key by key, as
    [AgentState] annotates them: [messages] is [Annotated[List, add_messages]],
    the six other keys have no reducer. *)
Definition merge (state : AgentState) (update : Update) : AgentState :=
  {| messages :=
       match upd_messages update with
       | Some new => add_messages (messages state) new
       | None => messages state
       end;
     user_goal := last_value (user_goal state) (upd_user_goal update);
     plan := last_value (plan state) (upd_plan update);
     current_step_index :=
       last_value (current_step_index state) (upd_current_step_index update);
     execution_log := last_value (execution_log state) (upd_execution_log update);
     next_step := last_value (next_step state) (upd_next_step update);
     status := last_value (status state) (upd_status update) |}.

(** ** nodes.py *)

Definition LF : str := [10%N].

(** The bullet prefixes of [_parse_plan]; the third starts with U+2022. *)
Definition bullet_prefixes : list str := [py "- "; py "* "; [8226%N; 32%N]].

Definition _parse_plan (text : str) : list str :=
  fold_left
    (fun steps raw_line =>
       let line := strip raw_line in
       if negb (truthy line) then steps
       else
         let line :=
           fold_left
             (fun line prefix =>
                if startswith line prefix
                then strip (skipn (length prefix) line)
                else line)
             bullet_prefixes line in
         let line :=
           if contains line (py ". ") && isdigit (nth 0 (split1 line (py ". ")) [])
           then strip (nth 1 (split1 line (py ". ")) [])
           else line in
         steps ++ [line])
    (splitlines text) [].

(** [getattr(last_message, "name", None) if last_message else None] for
    [last_message = messages[-1] if messages else None]. *)
Definition last_name_of (messages : list BaseMessage) : option str :=
  match last_or_none messages with
  | Some last_message => name last_message
  | None => None
  end.

(** Truth value of an optional string: [None] and the empty string are
    false. *)
Definition truthy_opt (s : option str) : bool :=
  match s with
  | Some v => truthy v
  | None => false
  end.

(** [s == lit] for an optional string [s]. *)
Definition opt_eqb (s : option str) (lit : str) : bool :=
  match s with
  | Some v => str_eqb v lit
  | None => false
  end.

Definition supervisor_node (state : AgentState) : Update :=
  let last_name := last_name_of (messages state) in
  let plan := plan state in
  let current_index := current_step_index state in
  let next_step :=
    if negb (truthy_opt last_name) then py "Planner"
    else if opt_eqb last_name (py "Planner") then py "Executor"
    else if opt_eqb last_name (py "Executor") then
      if current_index <? Z.of_nat (length plan) then py "Executor"
      else py "FINISH"
    else py "FINISH" in
  {| upd_messages := None;
     upd_user_goal := None;
     upd_plan := None;
     upd_current_step_index := None;
     upd_execution_log := None;
     upd_next_step := Some next_step;
     upd_status := Some (py "supervising") |}.

(** The goal the Planner works from: the [user_goal] key, else the content of
    the first message, else a fixed default. *)
Definition planner_goal (state : AgentState) : str :=
  let user_goal := user_goal state in
  if negb (truthy user_goal) then
    match messages state with
    | first :: _ => content first
    | [] => py "Set up a basic ML experiment tracking workflow."
    end
  else user_goal.

Definition planner_prompt (user_goal : str) : list BaseMessage :=
  [ SystemMessage
      (py "You are an MLOps planning assistant. Given a high-level "
       ++ py "goal, produce a short ordered list of concrete steps to "
       ++ py "achieve it. Focus on practical, implementation-oriented "
       ++ py "actions suitable for a small lab environment.");
    HumanMessage
      (py "User goal: " ++ user_goal ++ LF ++ LF
       ++ py "Respond with 4-8 steps as a numbered list.")
      None ].

Definition fallback_steps : list str :=
  [ py "Clarify the goal and constraints.";
    py "Draft a minimal implementation plan.";
    py "Implement the plan in a step-by-step fashion.";
    py "Verify that the goal has been achieved." ].

Definition executor_prompt (user_goal step_text : str) : list BaseMessage :=
  [ SystemMessage
      (py "You are an MLOps execution assistant. For the given plan "
       ++ py "step, describe briefly (3-5 sentences) how you would carry "
       ++ py "it out in practice, including any relevant tools, commands, "
       ++ py "or configuration considerations.");
    HumanMessage
      (py "Overall user goal: " ++ user_goal ++ LF
       ++ py "Current step: " ++ step_text)
      None ].

Section Workflow.

(** The language model, [llm.invoke(messages)] with its answer's content as
    a string. Nothing is assumed of it but that it answers: the reply may
    depend on the prompt and on how many calls came before (the [nat]). *)
Variable llm : nat -> list BaseMessage -> str.

(** A node that may call the model takes the number of calls made so far and
    returns it updated with its dictionary. *)
Definition planner_node (state : AgentState) (calls : nat) : Update * nat :=
  let user_goal := planner_goal state in
  let raw_plan := llm calls (planner_prompt user_goal) in
  let steps := _parse_plan raw_plan in
  let steps := if negb (truthy steps) then fallback_steps else steps in
  ({| upd_messages := Some [HumanMessage raw_plan (Some (py "Planner"))];
      upd_user_goal := Some user_goal;
      upd_plan := Some steps;
      upd_current_step_index := Some 0;
      upd_execution_log := None;
      upd_next_step := None;
      upd_status := Some (py "planning_done") |},
   S calls).

Definition nothing_to_execute : Update :=
  {| upd_messages := None;
     upd_user_goal := None;
     upd_plan := None;
     upd_current_step_index := None;
     upd_execution_log := None;
     upd_next_step := None;
     upd_status := Some (py "nothing_to_execute") |}.

Definition executor_node (state : AgentState) (calls : nat)
  : result (Update * nat) :=
  let plan := plan state in
  let current_index := current_step_index state in
  if negb (truthy plan) || (current_index >=? Z.of_nat (length plan)) then
    Ok (nothing_to_execute, calls)
  else
    step_text <- getitem plan current_index ;;
    let explanation := llm calls (executor_prompt (user_goal state) step_text) in
    let previous_log := execution_log state in
    let entry :=
      py "Step " ++ str_of_int (current_index + 1) ++ py ": " ++ step_text
      ++ LF ++ explanation in
    let previous_log := previous_log ++ [entry] in
    Ok ({| upd_messages := Some [HumanMessage explanation (Some (py "Executor"))];
           upd_user_goal := None;
           upd_plan := None;
           upd_current_step_index := Some (current_index + 1);
           upd_execution_log := Some previous_log;
           upd_next_step := None;
           upd_status := Some (py "executing") |},
        S calls).

(** ** graph.py

    The graph [build_planner_executor_graph] compiles: its three nodes, the
    edge from [START] to the Supervisor, the conditional edge out of the
    Supervisor, and the edges from the two agents back to it. *)

Inductive Node := Supervisor | Planner | Executor.

(** Where an edge leads: a node, or [END]. *)
Inductive Target := Goto (n : Node) | END.

(** The mapping of the conditional edge out of the Supervisor, applied to
    [x["next_step"]]. *)
Definition conditional_edge (key : str) : result Target :=
  if str_eqb key (py "Planner") then Ok (Goto Planner)
  else if str_eqb key (py "Executor") then Ok (Goto Executor)
  else if str_eqb key (py "FINISH") then Ok END
  else Raise KeyError.

(** A point of a run: the node scheduled next, the state, and the number of
    model calls made so far. *)
Record Config := {
  pending : Target;
  values : AgentState;
  llm_calls : nat
}.

Definition invoke (n : Node) (state : AgentState) (calls : nat)
  : result (Update * nat) :=
  match n with
  | Supervisor => Ok (supervisor_node state, calls)
  | Planner => Ok (planner_node state calls)
  | Executor => executor_node state calls
  end.

(** The edge taken out of node [n], read on the state after its update. *)
Definition successor (n : Node) (state : AgentState) : result Target :=
  match n with
  | Supervisor => conditional_edge (next_step state)
  | Planner => Ok (Goto Supervisor)
  | Executor => Ok (Goto Supervisor)
  end.

(** One step of the compiled graph: run the scheduled node, fold its update
    into the state, follow its outgoing edge. *)
Definition superstep (n : Node) (c : Config) : result Config :=
  r <- invoke n (values c) (llm_calls c) ;;
  let state := merge (values c) (fst r) in
  t <- successor n state ;;
  Ok {| pending := t; values := state; llm_calls := snd r |}.

(** The loop of the runner from [c] with [limit] steps left of its budget:
    the nodes invoked, in order, and either the configuration at [END] or
    the exception that stopped the run. Each round of the loop first checks
    the budget and then whether a node is scheduled, so that a run of [n]
    nodes needs a budget of [n + 1] to be seen to end. *)
Fixpoint run_graph (limit : nat) (c : Config) : list Node * result Config :=
  match limit with
  | O => ([], Raise GraphRecursionError)
  | S limit' =>
      match pending c with
      | END => ([], Ok c)
      | Goto n =>
          match superstep n c with
          | Ok c' =>
              let (ns, r) := run_graph limit' c' in (n :: ns, r)
          | Raise e => ([n], Raise e)
          end
      end
  end.

(** [graph.stream] with the recursion limit [limit]: the runner refuses a
    limit below one before it runs anything. *)
Definition graph_stream (limit : nat) (c : Config) : list Node * result Config :=
  match limit with
  | O => ([], Raise ValueError)
  | S _ => run_graph limit c
  end.

(** ** agent.py *)

Definition initial_state (user_goal : str) : AgentState :=
  {| messages := [HumanMessage user_goal None];
     user_goal := user_goal;
     plan := [];
     current_step_index := 0;
     execution_log := [];
     next_step := py "";
     status := py "created" |}.

(** The start of a run on a fresh thread: [START] leads to the Supervisor. *)
Definition initial_config (user_goal : str) : Config :=
  {| pending := Goto Supervisor;
     values := initial_state user_goal;
     llm_calls := O |}.

(** A state as the input of a run: every key is written. *)
Definition as_update (state : AgentState) : Update :=
  {| upd_messages := Some (messages state);
     upd_user_goal := Some (user_goal state);
     upd_plan := Some (plan state);
     upd_current_step_index := Some (current_step_index state);
     upd_execution_log := Some (execution_log state);
     upd_next_step := Some (next_step state);
     upd_status := Some (status state) |}.

(** The state a call of [run_once] starts from. The graph of the module
    keeps its states in memory under one fixed thread id: [saved] is the
    state it holds for the thread, [None] for the first call in a process.
    The input [initial_state] is folded into it as an update is, so that the
    messages saved before stay in front of the new one and every other key
    is the input's. *)
Definition thread_state (saved : option AgentState) (user_goal : str)
  : AgentState :=
  match saved with
  | None => initial_state user_goal
  | Some state => merge state (as_update (initial_state user_goal))
  end.

(** A call starts at [START], which leads to the Supervisor. *)
Definition thread_config (saved : option AgentState) (user_goal : str)
  : Config :=
  {| pending := Goto Supervisor;
     values := thread_state saved user_goal;
     llm_calls := O |}.

(** [run_once] keeps the last state the graph streams, the state at [END];
    an exception of the graph goes through to the caller. [limit] is the
    recursion limit of the runner, which [run_once] leaves at the library's
    default. *)
Definition run_once (limit : nat) (saved : option AgentState)
  (user_goal : str) : result AgentState :=
  c <- snd (graph_stream limit (thread_config saved user_goal)) ;;
  Ok (values c).

(** The Supervisor decisions of a run: its Supervisor invocations. *)
Definition decisions (ns : list Node) : nat :=
  length (filter (fun n => match n with Supervisor => true | _ => false end) ns).

(** The Executor turns of a run. *)
Definition executor_turns (ns : list Node) : nat :=
  length (filter (fun n => match n with Executor => true | _ => false end) ns).

(** The Planner turns of a run. *)
Definition planner_turns (ns : list Node) : nat :=
  length (filter (fun n => match n with Planner => true | _ => false end) ns).

(** The configurations a run from the initial state goes through, each with
    the nodes invoked on the way to it. *)
Inductive reachable (user_goal : str) : list Node -> Config -> Prop :=
| reach_init : reachable user_goal [] (initial_config user_goal)
| reach_step ns c n c' :
    reachable user_goal ns c ->
    pending c = Goto n ->
    superstep n c = Ok c' ->
    reachable user_goal (ns ++ [n]) c'.

(** *** What holds along a run *)

(** The plan the Planner turn of a run produces: the Planner is invoked on
    the initial state after the first Supervisor turn, before any model
    call. *)
Definition planned_steps (user_goal : str) : list str :=
  let state := initial_state user_goal in
  let state := merge state (supervisor_node state) in
  match upd_plan (fst (planner_node state 0)) with
  | Some steps => steps
  | None => []
  end.

(** The last message of the state carries the author tag [who]. *)
Definition tagged (who : str) (state : AgentState) : Prop :=
  last_name_of (messages state) = Some who.

(** The facts that hold from the end of the Planner turn on. *)
Definition planning_done (user_goal : str) (ns : list Node)
  (state : AgentState) : Prop :=
  plan state = planned_steps user_goal /\
  planner_turns ns = 1%nat /\
  Z.of_nat (executor_turns ns) = current_step_index state /\
  Z.of_nat (length (execution_log state)) = current_step_index state /\
  current_step_index state <= Z.of_nat (length (plan state)).

(** The invariant of a run, by the node scheduled next. *)
Definition run_invariant (user_goal : str) (ns : list Node) (c : Config)
  : Prop :=
  let state := values c in
  match pending c with
  | Goto Supervisor =>
      (ns = [] /\ c = initial_config user_goal) \/
      (planning_done user_goal ns state /\
       Z.of_nat (decisions ns) = current_step_index state + 1 /\
       ((tagged (py "Planner") state /\ current_step_index state = 0) \/
        (tagged (py "Executor") state /\ 0 < current_step_index state)))
  | Goto Planner =>
      ns = [Supervisor] /\
      state = merge (initial_state user_goal)
                (supervisor_node (initial_state user_goal)) /\
      llm_calls c = O
  | Goto Executor =>
      planning_done user_goal ns state /\
      Z.of_nat (decisions ns) = current_step_index state + 2 /\
      current_step_index state < Z.of_nat (length (plan state))
  | END =>
      planning_done user_goal ns state /\
      Z.of_nat (decisions ns) = current_step_index state + 2 /\
      current_step_index state = Z.of_nat (length (plan state)) /\
      tagged (py "Executor") state
  end.

(** The number of steps from [c] to [END], for a plan of [len] steps. *)
Definition steps_left (len : nat) (c : Config) : nat :=
  let done := Z.to_nat (current_step_index (values c)) in
  match pending c with
  | END => 0
  | Goto Planner => 2 * len + 2
  | Goto Executor => 2 * (len - done)
  | Goto Supervisor =>
      if truthy_opt (last_name_of (messages (values c)))
      then 2 * (len - done) + 1
      else 2 * len + 3
  end.

(** *** What holds along a run on any thread *)

(** A state a run can start from: no author tag on the last message, no
    plan, no step done. *)
Definition start_state (state : AgentState) : Prop :=
  last_name_of (messages state) = None /\
  plan state = [] /\
  current_step_index state = 0 /\
  execution_log state = [].

(** The plan the Planner turn produces in a run that starts from
    [start]. *)
Definition planned_from (start : AgentState) : list str :=
  let state := merge start (supervisor_node start) in
  match upd_plan (fst (planner_node state 0)) with
  | Some steps => steps
  | None => []
  end.

Definition planning_done_from (start : AgentState) (ns : list Node)
  (state : AgentState) : Prop :=
  plan state = planned_from start /\
  planner_turns ns = 1%nat /\
  Z.of_nat (executor_turns ns) = current_step_index state /\
  Z.of_nat (length (execution_log state)) = current_step_index state /\
  current_step_index state <= Z.of_nat (length (plan state)).

(** The invariant of a run that starts from [start], by the node scheduled
    next. *)
Definition run_invariant_from (start : AgentState) (ns : list Node)
  (c : Config) : Prop :=
  let state := values c in
  match pending c with
  | Goto Supervisor =>
      (ns = [] /\ state = start /\ llm_calls c = O) \/
      (planning_done_from start ns state /\
       Z.of_nat (decisions ns) = current_step_index state + 1 /\
       ((tagged (py "Planner") state /\ current_step_index state = 0) \/
        (tagged (py "Executor") state /\ 0 < current_step_index state)))
  | Goto Planner =>
      ns = [Supervisor] /\
      state = merge start (supervisor_node start) /\
      llm_calls c = O
  | Goto Executor =>
      planning_done_from start ns state /\
      Z.of_nat (decisions ns) = current_step_index state + 2 /\
      current_step_index state < Z.of_nat (length (plan state))
  | END =>
      planning_done_from start ns state /\
      Z.of_nat (decisions ns) = current_step_index state + 2 /\
      current_step_index state = Z.of_nat (length (plan state)) /\
      tagged (py "Executor") state /\
      next_step state = py "FINISH" /\
      status state = py "supervising"
  end.

End Workflow.

(** ** tools.py *)

Definition summarize_step (step : str) : str :=
  py "Plan step summary: " ++ strip step.

(** ** Models and states used as examples *)

(** The mock model of the end-to-end scenario: a two-line numbered plan for
    the first call, the planning call, and a fixed text for every later
    call. *)
Definition mock_llm (calls : nat) (prompt : list BaseMessage) : str :=
  match calls with
  | O => py "1. Install agent" ++ LF ++ py "2. Configure dashboards"
  | S _ => py "Done."
  end.


(** ** The specification's wording, for comparison with the code *)

(** The three decisions of the Supervisor. *)
Inductive Decision := ToPlanner | ToExecutor | Finish.

(** The value of the [next_step] key that stands for a decision. *)
Definition decision_key (d : Decision) : str :=
  match d with
  | ToPlanner => py "Planner"
  | ToExecutor => py "Executor"
  | Finish => py "FINISH"
  end.

(** The author tag of a message: its name, when it has one that is not
    empty. *)
Definition author_tag (m : BaseMessage) : option str :=
  match name m with
  | Some (c :: tag) => Some (c :: tag)
  | _ => None
  end.

(** The first-match routing rule of the specification. *)
Definition route_spec (state : AgentState) : Decision :=
  match last_or_none (messages state) with
  | None => ToPlanner
  | Some last =>
      match author_tag last with
      | None => ToPlanner
      | Some tag =>
          if str_eqb tag (py "Planner") then ToExecutor
          else if str_eqb tag (py "Executor") then
            if current_step_index state <? Z.of_nat (length (plan state))
            then ToExecutor
            else Finish
          else Finish
      end
  end.

(** The merge policy as the specification words it: [messages] and
    [execution_log] are appended to, every other key is replaced. *)
Definition merge_spec (state : AgentState) (update : Update) : AgentState :=
  {| messages := messages state ++ match upd_messages update with
                                   | Some new => new
                                   | None => []
                                   end;
     user_goal := last_value (user_goal state) (upd_user_goal update);
     plan := last_value (plan state) (upd_plan update);
     current_step_index :=
       last_value (current_step_index state) (upd_current_step_index update);
     execution_log := execution_log state ++ match upd_execution_log update with
                                             | Some new => new
                                             | None => []
                                             end;
     next_step := last_value (next_step state) (upd_next_step update);
     status := last_value (status state) (upd_status update) |}.

(** A state one step into a two-step plan, with the log entry of that step. *)
Definition one_step_done : AgentState :=
  {| messages := [HumanMessage (py "goal") None;
                  HumanMessage (py "1. a" ++ LF ++ py "2. b") (Some (py "Planner"));
                  HumanMessage (py "did a") (Some (py "Executor"))];
     user_goal := py "goal";
     plan := [py "a"; py "b"];
     current_step_index := 1;
     execution_log := [py "a"];
     next_step := py "Executor";
     status := py "supervising" |}.

(** An update that carries the whole log after one more entry. *)
Definition full_log_update : Update :=
  {| upd_messages := None;
     upd_user_goal := None;
     upd_plan := None;
     upd_current_step_index := None;
     upd_execution_log := Some [py "a"; py "b"];
     upd_next_step := None;
     upd_status := None |}.

(** A state whose two steps are both done. *)
Definition plan_exhausted : AgentState :=
  {| messages := [HumanMessage (py "goal") None;
                  HumanMessage (py "1. a" ++ LF ++ py "2. b") (Some (py "Planner"));
                  HumanMessage (py "did a") (Some (py "Executor"));
                  HumanMessage (py "did b") (Some (py "Executor"))];
     user_goal := py "goal";
     plan := [py "a"; py "b"];
     current_step_index := 2;
     execution_log := [py "a"; py "b"];
     next_step := py "FINISH";
     status := py "supervising" |}.

(** The goal of the end-to-end scenario. *)
Definition scenario_goal : str := py "Set up monitoring".

(** The scenario after its first Executor turn. *)
Definition scenario_mid : Config :=
  {| pending := Goto Supervisor;
     values :=
       {| messages :=
            [HumanMessage scenario_goal None;
             HumanMessage
               (py "1. Install agent" ++ LF ++ py "2. Configure dashboards")
               (Some (py "Planner"));
             HumanMessage (py "Done.") (Some (py "Executor"))];
          user_goal := scenario_goal;
          plan := [py "Install agent"; py "Configure dashboards"];
          current_step_index := 1;
          execution_log := [py "Step 1: Install agent" ++ LF ++ py "Done."];
          next_step := py "Executor";
          status := py "executing" |};
     llm_calls := 2 |}.

(** The state the scenario's run returns. *)
Definition scenario_final : AgentState :=
  {| messages :=
       [HumanMessage scenario_goal None;
        HumanMessage
          (py "1. Install agent" ++ LF ++ py "2. Configure dashboards")
          (Some (py "Planner"));
        HumanMessage (py "Done.") (Some (py "Executor"));
        HumanMessage (py "Done.") (Some (py "Executor"))];
     user_goal := scenario_goal;
     plan := [py "Install agent"; py "Configure dashboards"];
     current_step_index := 2;
     execution_log :=
       [py "Step 1: Install agent" ++ LF ++ py "Done.";
        py "Step 2: Configure dashboards" ++ LF ++ py "Done."];
     next_step := py "FINISH";
     status := py "supervising" |}.

(** A model whose every answer is blank. *)
Definition blank_llm (calls : nat) (prompt : list BaseMessage) : str :=
  py " " ++ LF ++ LF ++ py "  ".

(** ** Notions used to state further properties *)

(** A string is clean when it is not empty and neither starts nor ends with
    a whitespace character. *)
Definition clean (s : str) : bool :=
  match s, rev s with
  | first :: _, last :: _ =>
      negb (Py_UNICODE_ISSPACE first) && negb (Py_UNICODE_ISSPACE last)
  | _, _ => false
  end.

(** A line is blank when stripping leaves nothing of it. *)
Definition blank (line : str) : bool := negb (truthy (strip line)).

(** No character of the string is a line boundary. *)
Definition single_line (s : str) : bool :=
  forallb (fun c => negb (Py_UNICODE_ISLINEBREAK c)) s.

(** ["\n".join(lines)] *)
Fixpoint join_lines (lines : list str) : str :=
  match lines with
  | [] => []
  | [line] => line
  | line :: rest => line ++ LF ++ join_lines rest
  end.

(** An item of a numbered list: its label, a full stop, a space, the step. *)
Definition numbered (item : str * str) : str :=
  fst item ++ py ". " ++ snd item.

(** What [_parse_plan] makes of a stripped line that is not empty: the line
    without its bullets and its number. *)
Definition without_markers (line : str) : str :=
  let line :=
    fold_left
      (fun line prefix =>
         if startswith line prefix
         then strip (skipn (length prefix) line)
         else line)
      bullet_prefixes line in
  if contains line (py ". ") && isdigit (nth 0 (split1 line (py ". ")) [])
  then strip (nth 1 (split1 line (py ". ")) [])
  else line.

(** The sample state one step into its plan, with another index. *)
Definition with_index (i : Z) : AgentState :=
  {| messages := messages one_step_done;
     user_goal := user_goal one_step_done;
     plan := plan one_step_done;
     current_step_index := i;
     execution_log := execution_log one_step_done;
     next_step := next_step one_step_done;
     status := status one_step_done |}.

(** The position [l[i]] reads, for an index [i] inside the bounds. *)
Definition position {A} (l : list A) (i : Z) : nat :=
  Z.to_nat (if i <? 0 then i + Z.of_nat (length l) else i).

(** The log entry the Executor writes for the step [step_text] at index
    [i], with the model's explanation. *)
Definition log_entry (i : Z) (step_text explanation : str) : str :=
  py "Step " ++ str_of_int (i + 1) ++ py ": " ++ step_text ++ LF ++ explanation.

(** A state the graph was not meant to start from: the last message is the
    Planner's, but there is no plan. *)
Definition planned_nothing : AgentState :=
  {| messages := [HumanMessage (py "goal") None;
                  HumanMessage (py "") (Some (py "Planner"))];
     user_goal := py "goal";
     plan := [];
     current_step_index := 0;
     execution_log := [];
     next_step := py "";
     status := py "created" |}.

(** A state whose last message carries a tag of another program. *)
Definition foreign_tag : AgentState :=
  {| messages := [HumanMessage (py "goal") None;
                  HumanMessage (py "looks fine") (Some (py "QA"))];
     user_goal := py "goal";
     plan := [py "a"; py "b"];
     current_step_index := 0;
     execution_log := [];
     next_step := py "";
     status := py "created" |}.

(** The names the nodes are registered under in the graph. *)
Definition node_name (n : Node) : str :=
  match n with
  | Supervisor => py "Supervisor"
  | Planner => py "Planner"
  | Executor => py "Executor"
  end.

(** The log a run has after [k] Executor turns on [plan]: entry [i] is
    made of the step at position [i] and of the model's answer to call
    [i + 1], the call after the planning call and the [i] earlier steps. *)
Definition expected_log (llm : nat -> list BaseMessage -> str)
  (goal : str) (plan : list str) (k : nat) : list str :=
  map (fun i =>
         log_entry (Z.of_nat i) (nth i plan [])
           (llm (S i) (executor_prompt goal (nth i plan []))))
      (seq 0 k).

(** What a configuration of a run records of the run so far. *)
Definition run_record (llm : nat -> list BaseMessage -> str)
  (goal : str) (ns : list Node) (c : Config) : Prop :=
  let state := values c in
  user_goal state = goal /\
  (exists rest,
     messages state = HumanMessage goal None :: rest /\
     length rest = (planner_turns ns + executor_turns ns)%nat) /\
  llm_calls c = (planner_turns ns + executor_turns ns)%nat /\
  execution_log state =
    expected_log llm goal (plan state) (length (execution_log state)) /\
  match pending c with
  | Goto Supervisor => True
  | target =>
      status state = py "supervising" /\
      conditional_edge (next_step state) = Ok target
  end.

(** The messages of a run after its Planner turn and [k] Executor turns on
    [plan]: the caller's goal, the model's answer to the planning call tagged
    Planner, and for each step executed the model's answer on that step
    tagged Executor. *)
Definition expected_messages (llm : nat -> list BaseMessage -> str)
  (goal : str) (plan : list str) (k : nat) : list BaseMessage :=
  HumanMessage goal None
  :: HumanMessage (llm O (planner_prompt goal)) (Some (py "Planner"))
  :: map (fun i =>
            HumanMessage (llm (S i) (executor_prompt goal (nth i plan [])))
              (Some (py "Executor")))
         (seq 0 k).

(** Whether some range of one table meets some range of the other. *)
Definition ranges_meet (t1 t2 : list (N * N)) : bool :=
  existsb (fun r1 =>
    existsb (fun r2 => (fst r1 <=? snd r2)%N && (fst r2 <=? snd r1)%N) t2) t1.

(** * Properties *)

(** ** Strings and lists *)

Lemma str_eqb_eq (a b : str) : str_eqb a b = true <-> a = b.
Proof.
  revert b; induction a as [|x a IH]; intros [|y b]; simpl;
    split; try congruence; try discriminate.
  - intros H. apply andb_true_iff in H as [Hx Hab].
    apply N.eqb_eq in Hx. apply IH in Hab. congruence.
  - intros H. injection H as -> ->. rewrite N.eqb_refl. simpl.
    apply IH. reflexivity.
Qed.

Lemma last_or_none_snoc {A} (l : list A) (x : A) :
  last_or_none (l ++ [x]) = Some x.
Proof. unfold last_or_none. rewrite rev_app_distr. reflexivity. Qed.

(** Where [sep in s] holds, [s.split(sep, 1)] has its two parts, so that
    [_parse_plan] reads index 1 of it safely. *)
Lemma contains_split1 (s sep : str) :
  contains s sep = true -> exists before after, split1 s sep = [before; after].
Proof.
  unfold split1. induction s as [|c s IH]; cbn [contains partition].
  - destruct (startswith [] sep); [eauto | discriminate].
  - destruct (startswith (c :: s) sep); [eauto|]. cbn [orb]. intros Hin.
    destruct (IH Hin) as (before & after & Hsplit).
    destruct (partition s sep) as [[b a]|]; [eauto | discriminate].
Qed.

(** Bullets, numbers and blank lines, each cleaned as [_parse_plan] does. *)
Example _parse_plan_cleans_lines :
  _parse_plan (py "- first" ++ LF ++ py "* second" ++ LF
               ++ [8226%N; 32%N] ++ py "third" ++ LF ++ LF
               ++ py "  4. fourth  " ++ [13%N; 10%N] ++ py "fifth. and more")
  = [py "first"; py "second"; py "third"; py "fourth"; py "fifth. and more"].
Proof. vm_compute. reflexivity. Qed.

(** Inside the bounds, indexing returns the element at that position. *)
Lemma getitem_in_range {A} (l : list A) (i : Z) :
  0 <= i < Z.of_nat (length l) ->
  exists x, nth_error l (Z.to_nat i) = Some x /\ getitem l i = Ok x.
Proof.
  intros [Hlo Hhi]. unfold getitem.
  assert (Hneg : (i <? 0) = false) by (apply Z.ltb_ge; lia).
  assert (Hin : (0 <=? i) && (i <? Z.of_nat (length l)) = true).
  { apply andb_true_iff; split; [apply Z.leb_le | apply Z.ltb_lt]; lia. }
  rewrite Hneg, Hin.
  destruct (nth_error l (Z.to_nat i)) as [x|] eqn:Hnth.
  - exists x. split; reflexivity.
  - apply nth_error_None in Hnth. lia.
Qed.

(** ** The Supervisor *)

(** The whole dictionary the Supervisor returns. *)
Lemma supervisor_node_returns (state : AgentState) :
  supervisor_node state =
  {| upd_messages := None;
     upd_user_goal := None;
     upd_plan := None;
     upd_current_step_index := None;
     upd_execution_log := None;
     upd_next_step := Some (decision_key (route_spec state));
     upd_status := Some (py "supervising") |}.
Proof.
  unfold supervisor_node, route_spec, last_name_of, author_tag.
  destruct (last_or_none (messages state)) as [last|]; [|reflexivity].
  destruct (name last) as [[|c tag]|]; try reflexivity.
  cbn [truthy_opt truthy negb opt_eqb].
  destruct (str_eqb (c :: tag) (py "Planner")); [reflexivity|].
  destruct (str_eqb (c :: tag) (py "Executor")); [|reflexivity].
  destruct (current_step_index state <? Z.of_nat (length (plan state)));
    reflexivity.
Qed.

(** The state after a Supervisor turn. *)
Lemma supervisor_turn_state (state : AgentState) :
  merge state (supervisor_node state) =
  {| messages := messages state;
     user_goal := user_goal state;
     plan := plan state;
     current_step_index := current_step_index state;
     execution_log := execution_log state;
     next_step := decision_key (route_spec state);
     status := py "supervising" |}.
Proof. rewrite supervisor_node_returns. reflexivity. Qed.

(** C1. Applied to any state, the Supervisor's decision is the one the
    first-match rule of the specification gives: Planner when there is no
    message or the last one has no author tag (no name, or an empty one),
    Executor after a message tagged Planner, Executor or Finish after a
    message tagged Executor according to whether
    [current_step_index < len(plan)], and Finish after any other tag. *)
Theorem supervisor_node_routes_as_specified (state : AgentState) :
  upd_next_step (supervisor_node state) = Some (decision_key (route_spec state)).
Proof. rewrite supervisor_node_returns. reflexivity. Qed.

(** C4, as the code has it. A Supervisor turn calls no model and leaves
    [messages], [user_goal], [plan], [current_step_index] and
    [execution_log] as they were; it writes its decision to [next_step] and
    sets [status] to "supervising". *)
Theorem supervisor_turn_frame (llm : nat -> list BaseMessage -> str)
  (state : AgentState) (calls : nat) :
  invoke llm Supervisor state calls = Ok (supervisor_node state, calls) /\
  let state' := merge state (supervisor_node state) in
  messages state' = messages state /\
  user_goal state' = user_goal state /\
  plan state' = plan state /\
  current_step_index state' = current_step_index state /\
  execution_log state' = execution_log state /\
  next_step state' = decision_key (route_spec state) /\
  status state' = py "supervising".
Proof.
  split; [reflexivity|].
  cbv zeta. rewrite supervisor_turn_state. repeat split.
Qed.

(** C4, counterexample. On the initial state of a run the Supervisor turn
    changes [status], a key other than [next_step], from "created" to
    "supervising". *)
Lemma supervisor_turn_changes_status :
  let state := initial_state (py "Set up monitoring") in
  status state = py "created" /\
  status (merge state (supervisor_node state)) = py "supervising" /\
  status (merge state (supervisor_node state)) <> status state.
Proof. cbv zeta. repeat split. discriminate. Qed.

(** ** The Executor *)

(** With a step left, the Executor calls the model once and returns the
    message, the whole log with the new entry, and the next index. *)
Lemma executor_node_runs (llm : nat -> list BaseMessage -> str)
  (state : AgentState) (calls : nat) :
  0 <= current_step_index state < Z.of_nat (length (plan state)) ->
  exists explanation entry,
    executor_node llm state calls =
      Ok ({| upd_messages :=
               Some [HumanMessage explanation (Some (py "Executor"))];
             upd_user_goal := None;
             upd_plan := None;
             upd_current_step_index := Some (current_step_index state + 1);
             upd_execution_log := Some (execution_log state ++ [entry]);
             upd_next_step := None;
             upd_status := Some (py "executing") |}, S calls).
Proof.
  intros Hidx. unfold executor_node.
  assert (Hne : truthy (plan state) = true).
  { destruct (plan state); [simpl in Hidx; lia | reflexivity]. }
  assert (Hge : (current_step_index state >=? Z.of_nat (length (plan state)))
                = false) by (rewrite Z.geb_leb; apply Z.leb_gt; lia).
  rewrite Hne, Hge. cbn [negb orb].
  destruct (getitem_in_range (plan state) (current_step_index state) Hidx)
    as [step_text [_ Hget]].
  rewrite Hget. cbn [bind]. eexists. eexists. reflexivity.
Qed.

(** C9. On a state whose plan is empty or whose index has reached the length
    of the plan, the Executor returns the dictionary holding "status":
    "nothing_to_execute" and no other key, without calling the model; merged
    into the state it changes [status] and nothing else. *)
Theorem executor_node_nothing_to_execute (llm : nat -> list BaseMessage -> str)
  (state : AgentState) (calls : nat) :
  plan state = [] \/ current_step_index state >= Z.of_nat (length (plan state)) ->
  executor_node llm state calls =
    Ok ({| upd_messages := None;
           upd_user_goal := None;
           upd_plan := None;
           upd_current_step_index := None;
           upd_execution_log := None;
           upd_next_step := None;
           upd_status := Some (py "nothing_to_execute") |}, calls) /\
  merge state nothing_to_execute =
    {| messages := messages state;
       user_goal := user_goal state;
       plan := plan state;
       current_step_index := current_step_index state;
       execution_log := execution_log state;
       next_step := next_step state;
       status := py "nothing_to_execute" |}.
Proof.
  intros Hguard. split; [|reflexivity].
  unfold executor_node.
  destruct Hguard as [Hempty | Hdone].
  - rewrite Hempty. reflexivity.
  - assert (Hge : (current_step_index state >=? Z.of_nat (length (plan state)))
                  = true) by (rewrite Z.geb_leb; apply Z.leb_le; lia).
    rewrite Hge, orb_true_r. reflexivity.
Qed.

(** C9, witness: a state whose two steps are both done. *)
Lemma executor_node_nothing_to_execute_witness :
  (plan plan_exhausted = [] \/
   current_step_index plan_exhausted
     >= Z.of_nat (length (plan plan_exhausted))) /\
  executor_node mock_llm plan_exhausted 3 = Ok (nothing_to_execute, 3%nat) /\
  status (merge plan_exhausted nothing_to_execute) = py "nothing_to_execute".
Proof.
  assert (H : plan plan_exhausted = [] \/
              current_step_index plan_exhausted
                >= Z.of_nat (length (plan plan_exhausted)))
    by (right; simpl; lia).
  split; [exact H|].
  destruct (executor_node_nothing_to_execute mock_llm plan_exhausted 3 H)
    as [Hret Hmerge].
  split; [exact Hret|]. rewrite Hmerge. reflexivity.
Defined.

(** ** The merge *)

(** C3, as the code has it. The merge appends to [messages] and replaces
    every other key the update carries, [execution_log] and [plan] among
    them; a key absent from the update keeps its value. Under this policy an
    Executor turn on a state with a step left, returning the whole log,
    leaves the log one entry longer: the old log followed by the new
    entry. *)
Theorem merge_policy (llm : nat -> list BaseMessage -> str)
  (state : AgentState) (update : Update) (calls : nat) :
  messages (merge state update) =
    messages state ++ match upd_messages update with
                      | Some new => new
                      | None => []
                      end /\
  user_goal (merge state update) =
    match upd_user_goal update with Some v => v | None => user_goal state end /\
  plan (merge state update) =
    match upd_plan update with Some v => v | None => plan state end /\
  current_step_index (merge state update) =
    match upd_current_step_index update with
    | Some v => v
    | None => current_step_index state
    end /\
  execution_log (merge state update) =
    match upd_execution_log update with
    | Some v => v
    | None => execution_log state
    end /\
  next_step (merge state update) =
    match upd_next_step update with Some v => v | None => next_step state end /\
  status (merge state update) =
    match upd_status update with Some v => v | None => status state end /\
  (0 <= current_step_index state < Z.of_nat (length (plan state)) ->
   exists turn entry,
     executor_node llm state calls = Ok (turn, S calls) /\
     upd_execution_log turn = Some (execution_log state ++ [entry]) /\
     execution_log (merge state turn) = execution_log state ++ [entry] /\
     length (execution_log (merge state turn)) =
       S (length (execution_log state))).
Proof.
  unfold merge, last_value, add_messages; cbn [messages user_goal plan
    current_step_index execution_log next_step status].
  repeat split.
  - destruct (upd_messages update); [reflexivity|].
    symmetry; apply app_nil_r.
  - intros Hidx.
    destruct (executor_node_runs llm state calls Hidx)
      as [explanation [entry Hrun]].
    eexists. exists entry. split; [exact Hrun|].
    cbn [upd_execution_log]. repeat split.
    rewrite length_app. simpl. lia.
Qed.

(** C3, witness: the second step of the sample state. *)
Lemma merge_policy_witness :
  0 <= current_step_index one_step_done
    < Z.of_nat (length (plan one_step_done)) /\
  exists turn entry,
    executor_node mock_llm one_step_done 1 = Ok (turn, 2%nat) /\
    upd_execution_log turn = Some (execution_log one_step_done ++ [entry]) /\
    execution_log (merge one_step_done turn)
      = execution_log one_step_done ++ [entry] /\
    length (execution_log (merge one_step_done turn))
      = S (length (execution_log one_step_done)).
Proof.
  assert (H : 0 <= current_step_index one_step_done
              < Z.of_nat (length (plan one_step_done))) by (simpl; lia).
  split; [exact H|].
  exact (proj2 (proj2 (proj2 (proj2 (proj2 (proj2 (proj2
    (merge_policy mock_llm one_step_done full_log_update 1))))))) H).
Defined.

(** C3, counterexample. With the log ["a"] and an update carrying the whole
    log ["a", "b"], the merged log is ["a", "b"]: the update replaced the
    log. Appending it, as the claim words the policy, gives
    ["a", "a", "b"]. *)
Lemma merge_replaces_execution_log :
  execution_log (merge one_step_done full_log_update) = [py "a"; py "b"] /\
  execution_log (merge_spec one_step_done full_log_update)
    = [py "a"; py "a"; py "b"] /\
  execution_log (merge one_step_done full_log_update)
    <> execution_log one_step_done
       ++ match upd_execution_log full_log_update with
          | Some new => new
          | None => []
          end.
Proof. repeat split. discriminate. Qed.

(** ** The Planner *)

(** C8. Whatever text the model answers, if the step parser finds no step in
    it the Planner returns normally, with the fixed plan of four steps
    (clarify, draft, implement, verify) as [plan] and
    [current_step_index] 0. *)
Theorem planner_node_fallback (llm : nat -> list BaseMessage -> str)
  (state : AgentState) (calls : nat) :
  _parse_plan (llm calls (planner_prompt (planner_goal state))) = [] ->
  exists update,
    invoke llm Planner state calls = Ok (update, S calls) /\
    upd_plan update =
      Some [py "Clarify the goal and constraints.";
            py "Draft a minimal implementation plan.";
            py "Implement the plan in a step-by-step fashion.";
            py "Verify that the goal has been achieved."] /\
    upd_current_step_index update = Some 0.
Proof.
  intros Hparse. eexists. split; [reflexivity|].
  unfold planner_node. cbn [fst upd_plan upd_current_step_index].
  rewrite Hparse. split; reflexivity.
Qed.

(** C8, witness: an answer of blanks and empty lines. *)
Lemma planner_node_fallback_witness :
  _parse_plan (blank_llm 0 (planner_prompt
                 (planner_goal (initial_state (py "Set up monitoring"))))) = [] /\
  exists update,
    invoke blank_llm Planner (initial_state (py "Set up monitoring")) 0
      = Ok (update, 1%nat) /\
    upd_plan update =
      Some [py "Clarify the goal and constraints.";
            py "Draft a minimal implementation plan.";
            py "Implement the plan in a step-by-step fashion.";
            py "Verify that the goal has been achieved."] /\
    upd_current_step_index update = Some 0.
Proof.
  split; [vm_compute; reflexivity|].
  apply (planner_node_fallback blank_llm). vm_compute. reflexivity.
Defined.

(** The Planner never hands over an empty plan. *)
Lemma planner_node_plan_nonempty (llm : nat -> list BaseMessage -> str)
  (state : AgentState) (calls : nat) :
  exists step steps,
    upd_plan (fst (planner_node llm state calls)) = Some (step :: steps).
Proof.
  unfold planner_node. cbn [fst upd_plan].
  destruct (_parse_plan (llm calls (planner_prompt (planner_goal state))))
    as [|step steps].
  - eexists. eexists. reflexivity.
  - exists step, steps. reflexivity.
Qed.

(** ** Runs *)

Lemma decisions_snoc (ns : list Node) (n : Node) :
  decisions (ns ++ [n]) =
  (decisions ns + match n with Supervisor => 1 | _ => 0 end)%nat.
Proof.
  unfold decisions. rewrite filter_app, length_app.
  destruct n; reflexivity.
Qed.

Lemma executor_turns_snoc (ns : list Node) (n : Node) :
  executor_turns (ns ++ [n]) =
  (executor_turns ns + match n with Executor => 1 | _ => 0 end)%nat.
Proof.
  unfold executor_turns. rewrite filter_app, length_app.
  destruct n; reflexivity.
Qed.

Lemma planner_turns_snoc (ns : list Node) (n : Node) :
  planner_turns (ns ++ [n]) =
  (planner_turns ns + match n with Planner => 1 | _ => 0 end)%nat.
Proof.
  unfold planner_turns. rewrite filter_app, length_app.
  destruct n; reflexivity.
Qed.

(** The edge the Supervisor's decision selects. *)
Lemma conditional_edge_decision (d : Decision) :
  conditional_edge (decision_key d) =
  Ok match d with
     | ToPlanner => Goto Planner
     | ToExecutor => Goto Executor
     | Finish => END
     end.
Proof. destruct d; reflexivity. Qed.

Lemma route_spec_untagged (state : AgentState) :
  last_name_of (messages state) = None -> route_spec state = ToPlanner.
Proof.
  unfold last_name_of, route_spec, author_tag.
  destruct (last_or_none (messages state)) as [last|]; [|reflexivity].
  intros ->. reflexivity.
Qed.

Lemma route_spec_after_planner (state : AgentState) :
  tagged (py "Planner") state -> route_spec state = ToExecutor.
Proof.
  unfold tagged, last_name_of, route_spec, author_tag.
  destruct (last_or_none (messages state)) as [last|]; [|discriminate].
  intros ->. reflexivity.
Qed.

Lemma route_spec_after_executor (state : AgentState) :
  tagged (py "Executor") state ->
  route_spec state =
  if current_step_index state <? Z.of_nat (length (plan state))
  then ToExecutor else Finish.
Proof.
  unfold tagged, last_name_of, route_spec, author_tag.
  destruct (last_or_none (messages state)) as [last|]; [|discriminate].
  intros ->. reflexivity.
Qed.

Section Runs.

Variable llm : nat -> list BaseMessage -> str.
Variable goal : str.

Local Abbreviation planned := (planned_steps llm goal).

Lemma planned_steps_nonempty : planned <> [].
Proof.
  unfold planned_steps. cbv zeta.
  destruct (planner_node_plan_nonempty llm
              (merge (initial_state goal) (supervisor_node (initial_state goal)))
              0) as [step [steps ->]].
  discriminate.
Qed.

(** A Supervisor step: the state after the turn, and the edge its decision
    selects. *)
Lemma superstep_supervisor (c : Config) :
  superstep llm Supervisor c =
  Ok {| pending := match route_spec (values c) with
                   | ToPlanner => Goto Planner
                   | ToExecutor => Goto Executor
                   | Finish => END
                   end;
        values := merge (values c) (supervisor_node (values c));
        llm_calls := llm_calls c |}.
Proof.
  unfold superstep. cbn [invoke bind fst snd successor].
  replace (next_step (merge (values c) (supervisor_node (values c))))
    with (decision_key (route_spec (values c)))
    by (rewrite supervisor_turn_state; reflexivity).
  rewrite conditional_edge_decision. reflexivity.
Qed.

Lemma superstep_planner (c : Config) :
  superstep llm Planner c =
  Ok {| pending := Goto Supervisor;
        values := merge (values c) (fst (planner_node llm (values c) (llm_calls c)));
        llm_calls := S (llm_calls c) |}.
Proof. reflexivity. Qed.

Lemma planning_done_frame (ns ns' : list Node) (state state' : AgentState) :
  planning_done llm goal ns state ->
  plan state' = plan state ->
  current_step_index state' = current_step_index state ->
  execution_log state' = execution_log state ->
  planner_turns ns' = planner_turns ns ->
  executor_turns ns' = executor_turns ns ->
  planning_done llm goal ns' state'.
Proof.
  unfold planning_done. intros (Hp & Hpt & Het & Hlog & Hle) -> -> -> -> ->.
  repeat split; assumption.
Qed.

Lemma tagged_truthy (who : str) (state : AgentState) :
  tagged who state -> who <> [] ->
  truthy_opt (last_name_of (messages state)) = true.
Proof.
  unfold tagged. intros -> Hne. destruct who; [congruence | reflexivity].
Qed.

(** One step from a configuration that satisfies the invariant: the step
    succeeds, the invariant holds after it, [END] is one step closer, the
    index has not decreased, and after the Planner turn the plan is the
    same. *)
Lemma run_step (ns : list Node) (c : Config) (n : Node) :
  run_invariant llm goal ns c ->
  pending c = Goto n ->
  exists c',
    superstep llm n c = Ok c' /\
    run_invariant llm goal (ns ++ [n]) c' /\
    steps_left (length planned) c = S (steps_left (length planned) c') /\
    current_step_index (values c) <= current_step_index (values c') /\
    (In Planner ns -> plan (values c') = plan (values c)).
Proof.
  intros Hinv Hp. unfold run_invariant in Hinv. rewrite Hp in Hinv.
  cbv zeta in Hinv. destruct n.
  - (* Supervisor *)
    rewrite superstep_supervisor. eexists. split; [reflexivity|].
    unfold run_invariant, steps_left. rewrite Hp.
    cbn [pending values llm_calls]. rewrite supervisor_turn_state.
    cbn [messages user_goal plan current_step_index execution_log].
    destruct Hinv as [[Hns Hc] | (Hdone & Hdec & Hlast)].
    + subst ns c. cbn [values initial_config].
      rewrite route_spec_untagged by reflexivity.
      repeat split; try reflexivity; try (cbn; lia); intros [].
    + assert (Hdone' : forall key label,
                planning_done llm goal (ns ++ [Supervisor])
                  {| messages := messages (values c);
                     user_goal := user_goal (values c);
                     plan := plan (values c);
                     current_step_index := current_step_index (values c);
                     execution_log := execution_log (values c);
                     next_step := key;
                     status := label |}).
      { intros key label.
        apply (planning_done_frame ns _ (values c)); try reflexivity;
          [assumption | rewrite planner_turns_snoc; simpl; lia
           | rewrite executor_turns_snoc; simpl; lia]. }
      assert (Hdec' : Z.of_nat (decisions (ns ++ [Supervisor]))
                      = current_step_index (values c) + 2)
        by (rewrite decisions_snoc; lia).
      destruct Hdone as (Hplan & Hpt & Het & Hlog & Hle).
      assert (Hlen : length (plan (values c)) = length planned)
        by (rewrite Hplan; reflexivity).
      assert (Hpos : (0 < length planned)%nat).
      { pose proof planned_steps_nonempty as Hne.
        destruct planned; [congruence | simpl; lia]. }
      destruct Hlast as [[Htag Hidx] | [Htag Hidx]].
      * rewrite (tagged_truthy _ _ Htag) by discriminate.
        rewrite route_spec_after_planner by assumption.
        cbn [plan current_step_index].
        split; [split; [apply Hdone' | split; [exact Hdec' | lia]]|].
        repeat split; lia.
      * rewrite (tagged_truthy _ _ Htag) by discriminate.
        rewrite route_spec_after_executor by assumption.
        destruct (Z.ltb_spec (current_step_index (values c))
                    (Z.of_nat (length (plan (values c))))) as [Hlt | Hge];
          cbn [plan current_step_index].
        -- split; [split; [apply Hdone' | split; [exact Hdec' | lia]]|].
           repeat split; lia.
        -- split; [split; [apply Hdone'
                          | split; [exact Hdec' | split; [lia | exact Htag]]]|].
           repeat split; lia.
  - (* Planner *)
    destruct Hinv as (Hns & Hval & Hcalls).
    rewrite superstep_planner.
    set (state' := merge (values c)
                     (fst (planner_node llm (values c) (llm_calls c)))).
    assert (Hplan' : plan state' = planned_steps llm goal)
      by (unfold state'; rewrite Hval, Hcalls; reflexivity).
    assert (Hidx' : current_step_index state' = 0) by reflexivity.
    assert (Hlog' : execution_log state' = [])
      by (unfold state'; rewrite Hval; reflexivity).
    assert (Htag' : tagged (py "Planner") state').
    { unfold tagged, last_name_of, state', merge, add_messages, planner_node.
      cbn [fst upd_messages messages].
      rewrite last_or_none_snoc. reflexivity. }
    assert (Hidx : current_step_index (values c) = 0)
      by (rewrite Hval; reflexivity).
    clearbody state'. subst ns.
    eexists. split; [reflexivity|].
    unfold run_invariant, steps_left. rewrite Hp.
    cbn [pending values llm_calls].
    rewrite (tagged_truthy _ _ Htag') by discriminate.
    rewrite Hidx', Hidx.
    split; [right; split; [|split; [reflexivity | left; split; trivial]]|].
    + unfold planning_done. rewrite Hplan', Hidx', Hlog'.
      repeat split. simpl. lia.
    + repeat split; [simpl; lia | lia | intros [Hin | []]; discriminate].
  - (* Executor *)
    destruct Hinv as (Hdone & Hdec & Hlt).
    destruct Hdone as (Hplan & Hpt & Het & Hlog & Hle).
    assert (Hidx : 0 <= current_step_index (values c)
                   < Z.of_nat (length (plan (values c)))) by lia.
    destruct (executor_node_runs llm (values c) (llm_calls c) Hidx)
      as [explanation [entry Hrun]].
    unfold superstep. cbn [invoke]. rewrite Hrun.
    cbn [bind fst snd successor]. eexists. split; [reflexivity|].
    unfold run_invariant, steps_left. rewrite Hp.
    cbn [pending values llm_calls].
    unfold merge, add_messages, last_name_of, last_value, tagged.
    cbn [upd_messages upd_user_goal upd_plan upd_current_step_index
         upd_execution_log upd_next_step upd_status
         messages user_goal plan current_step_index execution_log].
    rewrite last_or_none_snoc.
    assert (Hlen : length (plan (values c)) = length planned)
      by (rewrite Hplan; reflexivity).
    repeat split.
    + right. unfold planning_done, last_name_of.
      cbn [messages user_goal plan current_step_index execution_log].
      rewrite last_or_none_snoc, planner_turns_snoc, executor_turns_snoc,
        decisions_snoc, length_app.
      split; [repeat split; try assumption; simpl; lia|].
      split; [lia | right; split; [reflexivity | lia]].
    + change (truthy_opt (name (HumanMessage explanation (Some (py "Executor")))))
        with true.
      cbv iota. lia.
    + lia.
Qed.

(** Every configuration of a run satisfies the invariant. *)
Lemma reachable_invariant (ns : list Node) (c : Config) :
  reachable llm goal ns c -> run_invariant llm goal ns c.
Proof.
  induction 1 as [|ns c n c' Hreach IH Hp Hstep].
  - left. split; reflexivity.
  - destruct (run_step ns c n IH Hp) as (c'' & Hstep' & Hinv & _).
    rewrite Hstep in Hstep'. injection Hstep' as ->. exact Hinv.
Qed.

Lemma invariant_index_bounds (ns : list Node) (c : Config) :
  run_invariant llm goal ns c ->
  0 <= current_step_index (values c)
    <= Z.of_nat (length (plan (values c))).
Proof.
  unfold run_invariant, planning_done. cbv zeta.
  destruct (pending c) as [[| |]|].
  - intros [[_ ->] | ((_ & _ & Het & _ & Hle) & _)]; [simpl; lia | lia].
  - intros (_ & -> & _). simpl. lia.
  - intros ((_ & _ & Het & _ & Hle) & _). lia.
  - intros ((_ & _ & Het & _ & Hle) & _). lia.
Qed.

Lemma invariant_after_planning (ns : list Node) (c : Config) :
  run_invariant llm goal ns c -> In Planner ns ->
  planning_done llm goal ns (values c) /\ pending c <> Goto Planner.
Proof.
  unfold run_invariant. cbv zeta.
  destruct (pending c) as [[| |]|]; intros Hinv Hin.
  - destruct Hinv as [[-> _] | (Hdone & _)]; [destruct Hin|].
    split; [exact Hdone | discriminate].
  - destruct Hinv as (-> & _). destruct Hin as [Hin | []]. discriminate.
  - split; [apply Hinv | discriminate].
  - split; [apply Hinv | discriminate].
Qed.

Lemma invariant_decisions (ns : list Node) (c : Config) :
  run_invariant llm goal ns c ->
  (decisions ns <= length planned + 2)%nat /\
  (pending c = END ->
   decisions ns = (length planned + 2)%nat /\
   plan (values c) = planned).
Proof.
  unfold run_invariant, planning_done. cbv zeta.
  destruct (pending c) as [[| |]|].
  - intros [[-> _] | ((Hplan & _ & _ & _ & Hle) & Hdec & _)];
      (split; [|discriminate]); [unfold decisions; simpl; lia|].
    rewrite Hplan in Hle. lia.
  - intros (-> & _). split; [unfold decisions; simpl; lia | discriminate].
  - intros ((Hplan & _) & Hdec & Hlt). split; [|discriminate].
    rewrite Hplan in Hlt. lia.
  - intros ((Hplan & _) & Hdec & Hidx & _).
    rewrite Hplan in Hidx.
    split; [lia|]. intros _. split; [lia | exact Hplan].
Qed.

(** The graph run from a configuration of a run goes through configurations
    of the run, and stops at [END] or for want of steps, the latter exactly
    when the budget does not exceed the number of steps left. *)
Lemma run_graph_reachable (limit : nat) :
  forall (ns0 : list Node) (c : Config),
    reachable llm goal ns0 c ->
    exists c',
      reachable llm goal (ns0 ++ fst (run_graph llm limit c)) c' /\
      ((snd (run_graph llm limit c) = Ok c' /\ pending c' = END /\
        (steps_left (length planned) c < limit)%nat) \/
       (snd (run_graph llm limit c) = Raise GraphRecursionError /\
        (limit <= steps_left (length planned) c)%nat)).
Proof.
  induction limit as [|limit IH]; intros ns0 c Hreach.
  - exists c. simpl. rewrite app_nil_r.
    split; [exact Hreach | right; split; [reflexivity | lia]].
  - pose proof (reachable_invariant ns0 c Hreach) as Hinv.
    destruct (pending c) as [n|] eqn:Hp.
    + destruct (run_step ns0 c n Hinv Hp) as (c1 & Hstep & _ & Hleft & _).
      assert (Hreach1 : reachable llm goal (ns0 ++ [n]) c1)
        by (exact (reach_step llm goal ns0 c n c1 Hreach Hp Hstep)).
      destruct (IH (ns0 ++ [n]) c1 Hreach1) as (c' & Hreach' & Hend).
      exists c'. simpl. rewrite Hp, Hstep.
      destruct (run_graph llm limit c1) as [ns r]. simpl in *.
      rewrite <- app_assoc in Hreach'. simpl in Hreach'.
      split; [exact Hreach'|].
      destruct Hend as [(Hok & Hend & Hlimit) | [Hraise Hlimit]];
        [left; repeat split; [exact Hok | exact Hend | lia]
        | right; split; [exact Hraise | lia]].
    + exists c. unfold steps_left. simpl. rewrite Hp. simpl.
      rewrite app_nil_r.
      split; [exact Hreach | left; repeat split; lia].
Qed.

Lemma planner_turns_positive (ns : list Node) :
  (0 < planner_turns ns)%nat -> In Planner ns.
Proof.
  unfold planner_turns. induction ns as [|n ns IH]; simpl; [lia|].
  destruct n; simpl; intros Hpos; auto with arith.
Qed.

Lemma invariant_planner_once (ns : list Node) (c : Config) :
  run_invariant llm goal ns c ->
  (planner_turns ns <= 1)%nat /\
  (truthy_opt (last_name_of (messages (values c))) = true -> In Planner ns).
Proof.
  unfold run_invariant, planning_done. cbv zeta.
  destruct (pending c) as [[| |]|].
  - intros [[-> ->] | ((_ & Hpt & _) & _)].
    + split; [unfold planner_turns; simpl; lia | discriminate].
    + split; [lia | intros _; apply planner_turns_positive; lia].
  - intros (-> & -> & _).
    split; [unfold planner_turns; simpl; lia | discriminate].
  - intros ((_ & Hpt & _) & _).
    split; [lia | intros _; apply planner_turns_positive; lia].
  - intros ((_ & Hpt & _) & _).
    split; [lia | intros _; apply planner_turns_positive; lia].
Qed.

End Runs.

(** The scenario gets to its first Executor turn in four steps. *)
Lemma scenario_mid_reachable :
  reachable mock_llm scenario_goal
    [Supervisor; Planner; Supervisor; Executor] scenario_mid.
Proof.
  change [Supervisor; Planner; Supervisor; Executor]
    with (((([] ++ [Supervisor]) ++ [Planner]) ++ [Supervisor]) ++ [Executor]).
  eapply reach_step; [eapply reach_step; [eapply reach_step;
    [eapply reach_step; [apply reach_init | |] | |] | |] | |];
    reflexivity.
Qed.

(** C6. In every configuration of a run from the initial state,
    [0 <= current_step_index <= len(plan)], and no step of the run
    decreases [current_step_index]. *)
Theorem index_bounded_and_monotone (llm : nat -> list BaseMessage -> str)
  (goal : str) (ns : list Node) (c : Config) :
  reachable llm goal ns c ->
  0 <= current_step_index (values c)
    <= Z.of_nat (length (plan (values c))) /\
  forall n c',
    pending c = Goto n ->
    superstep llm n c = Ok c' ->
    current_step_index (values c) <= current_step_index (values c').
Proof.
  intros Hreach. pose proof (reachable_invariant llm goal ns c Hreach) as Hinv.
  split; [exact (invariant_index_bounds llm goal ns c Hinv)|].
  intros n c' Hp Hstep.
  destruct (run_step llm goal ns c n Hinv Hp) as (c'' & Hstep' & _ & _ & Hle & _).
  rewrite Hstep in Hstep'. injection Hstep' as ->. exact Hle.
Qed.

(** C6, witness: the scenario after its first Executor turn. *)
Lemma index_bounded_and_monotone_witness :
  0 <= current_step_index (values scenario_mid)
    <= Z.of_nat (length (plan (values scenario_mid))) /\
  forall n c',
    pending scenario_mid = Goto n ->
    superstep mock_llm n scenario_mid = Ok c' ->
    current_step_index (values scenario_mid) <= current_step_index (values c').
Proof.
  exact (index_bounded_and_monotone mock_llm scenario_goal
           [Supervisor; Planner; Supervisor; Executor] scenario_mid
           scenario_mid_reachable).
Defined.

(** C7. In every configuration of a run that the Planner turn has gone
    before, the length of [execution_log], [current_step_index] and the
    number of Executor turns so far are equal. *)
Theorem log_length_matches_index (llm : nat -> list BaseMessage -> str)
  (goal : str) (ns : list Node) (c : Config) :
  reachable llm goal ns c ->
  In Planner ns ->
  Z.of_nat (length (execution_log (values c))) = current_step_index (values c) /\
  Z.of_nat (executor_turns ns) = current_step_index (values c).
Proof.
  intros Hreach Hin.
  pose proof (reachable_invariant llm goal ns c Hreach) as Hinv.
  destruct (invariant_after_planning llm goal ns c Hinv Hin)
    as ((_ & _ & Het & Hlog & _) & _).
  split; assumption.
Qed.

(** C7, witness: the scenario after its first Executor turn. *)
Lemma log_length_matches_index_witness :
  In Planner [Supervisor; Planner; Supervisor; Executor] /\
  Z.of_nat (length (execution_log (values scenario_mid)))
    = current_step_index (values scenario_mid) /\
  Z.of_nat (executor_turns [Supervisor; Planner; Supervisor; Executor])
    = current_step_index (values scenario_mid).
Proof.
  assert (Hin : In Planner [Supervisor; Planner; Supervisor; Executor])
    by (right; left; reflexivity).
  split; [exact Hin|].
  exact (log_length_matches_index mock_llm scenario_goal
           [Supervisor; Planner; Supervisor; Executor] scenario_mid
           scenario_mid_reachable Hin).
Defined.

(** C10. Along a run from the initial state the Planner is invoked at most
    once; a configuration whose last message carries an author tag comes
    after the Planner turn; and after the Planner turn the Planner is not
    scheduled again, [plan] is the plan that turn produced, and no step
    changes it. *)
Theorem plan_immutable_once_set (llm : nat -> list BaseMessage -> str)
  (goal : str) (ns : list Node) (c : Config) :
  reachable llm goal ns c ->
  (planner_turns ns <= 1)%nat /\
  (truthy_opt (last_name_of (messages (values c))) = true -> In Planner ns) /\
  (In Planner ns ->
   pending c <> Goto Planner /\
   plan (values c) = planned_steps llm goal /\
   forall n c',
     pending c = Goto n ->
     superstep llm n c = Ok c' ->
     plan (values c') = plan (values c)).
Proof.
  intros Hreach. pose proof (reachable_invariant llm goal ns c Hreach) as Hinv.
  destruct (invariant_planner_once llm goal ns c Hinv) as [Honce Htag].
  split; [exact Honce|]. split; [exact Htag|].
  intros Hin.
  destruct (invariant_after_planning llm goal ns c Hinv Hin)
    as ((Hplan & _) & Hnot).
  split; [exact Hnot|]. split; [exact Hplan|].
  intros n c' Hp Hstep.
  destruct (run_step llm goal ns c n Hinv Hp) as (c'' & Hstep' & _ & _ & _ & Hsame).
  rewrite Hstep in Hstep'. injection Hstep' as ->. exact (Hsame Hin).
Qed.

(** C10, witness: the scenario after its first Executor turn. *)
Lemma plan_immutable_once_set_witness :
  truthy_opt (last_name_of (messages (values scenario_mid))) = true /\
  In Planner [Supervisor; Planner; Supervisor; Executor] /\
  pending scenario_mid <> Goto Planner /\
  plan (values scenario_mid) = planned_steps mock_llm scenario_goal /\
  forall n c',
    pending scenario_mid = Goto n ->
    superstep mock_llm n scenario_mid = Ok c' ->
    plan (values c') = plan (values scenario_mid).
Proof.
  destruct (plan_immutable_once_set mock_llm scenario_goal
              [Supervisor; Planner; Supervisor; Executor] scenario_mid
              scenario_mid_reachable) as (_ & Htag & Hafter).
  assert (Hlast : truthy_opt (last_name_of (messages (values scenario_mid)))
                  = true) by reflexivity.
  split; [exact Hlast|]. split; [exact (Htag Hlast)|].
  exact (Hafter (Htag Hlast)).
Defined.

(** ** Runs on any thread *)

Section ThreadRuns.

Variable llm : nat -> list BaseMessage -> str.
Variable start : AgentState.
Hypothesis start_ok : start_state start.

Local Abbreviation planned := (planned_from llm start).

Lemma planned_from_nonempty : planned <> [].
Proof.
  unfold planned_from. cbv zeta.
  destruct (planner_node_plan_nonempty llm
              (merge start (supervisor_node start)) 0) as [step [steps ->]].
  discriminate.
Qed.

Lemma planning_done_from_frame (ns ns' : list Node)
  (state state' : AgentState) :
  planning_done_from llm start ns state ->
  plan state' = plan state ->
  current_step_index state' = current_step_index state ->
  execution_log state' = execution_log state ->
  planner_turns ns' = planner_turns ns ->
  executor_turns ns' = executor_turns ns ->
  planning_done_from llm start ns' state'.
Proof.
  unfold planning_done_from.
  intros (Hp & Hpt & Het & Hlog & Hle) -> -> -> -> ->.
  repeat split; assumption.
Qed.

(** One step from a configuration that satisfies the invariant: the step
    succeeds, the invariant holds after it, and [END] is one step closer. *)
Lemma run_step_from (ns : list Node) (c : Config) (n : Node) :
  run_invariant_from llm start ns c ->
  pending c = Goto n ->
  exists c',
    superstep llm n c = Ok c' /\
    run_invariant_from llm start (ns ++ [n]) c' /\
    steps_left (length planned) c = S (steps_left (length planned) c').
Proof.
  destruct start_ok as (Huntagged & Hnoplan & Hnoindex & Hnolog).
  intros Hinv Hp. unfold run_invariant_from in Hinv. rewrite Hp in Hinv.
  cbv zeta in Hinv. destruct n.
  - (* Supervisor *)
    rewrite superstep_supervisor. eexists. split; [reflexivity|].
    unfold run_invariant_from, steps_left. rewrite Hp.
    cbn [pending values llm_calls]. rewrite supervisor_turn_state.
    cbn [messages user_goal plan current_step_index execution_log
         next_step status].
    destruct Hinv as [(Hns & Hval & Hcalls) | (Hdone & Hdec & Hlast)].
    + subst ns. rewrite Hval.
      rewrite (route_spec_untagged start Huntagged).
      split; [|rewrite Huntagged; cbn; lia].
      split; [reflexivity|]. split; [|exact Hcalls].
      rewrite supervisor_turn_state, (route_spec_untagged start Huntagged).
      reflexivity.
    + assert (Hdone' : forall key label,
                planning_done_from llm start (ns ++ [Supervisor])
                  {| messages := messages (values c);
                     user_goal := user_goal (values c);
                     plan := plan (values c);
                     current_step_index := current_step_index (values c);
                     execution_log := execution_log (values c);
                     next_step := key;
                     status := label |}).
      { intros key label.
        apply (planning_done_from_frame ns _ (values c)); try reflexivity;
          [assumption | rewrite planner_turns_snoc; simpl; lia
           | rewrite executor_turns_snoc; simpl; lia]. }
      assert (Hdec' : Z.of_nat (decisions (ns ++ [Supervisor]))
                      = current_step_index (values c) + 2)
        by (rewrite decisions_snoc; lia).
      destruct Hdone as (Hplan & Hpt & Het & Hlog & Hle).
      assert (Hlen : length (plan (values c)) = length planned)
        by (rewrite Hplan; reflexivity).
      assert (Hpos : (0 < length planned)%nat).
      { pose proof planned_from_nonempty as Hne.
        destruct planned; [congruence | simpl; lia]. }
      destruct Hlast as [[Htag Hidx] | [Htag Hidx]].
      * rewrite (tagged_truthy _ _ Htag) by discriminate.
        rewrite route_spec_after_planner by assumption.
        cbn [plan current_step_index].
        split; [split; [apply Hdone' | split; [exact Hdec' | lia]] | lia].
      * rewrite (tagged_truthy _ _ Htag) by discriminate.
        rewrite route_spec_after_executor by assumption.
        destruct (Z.ltb_spec (current_step_index (values c))
                    (Z.of_nat (length (plan (values c))))) as [Hlt | Hge];
          cbn [plan current_step_index].
        -- split; [split; [apply Hdone' | split; [exact Hdec' | lia]] | lia].
        -- split; [|lia].
           split; [apply Hdone'|]. split; [exact Hdec'|]. split; [lia|].
           split; [exact Htag | split; reflexivity].
  - (* Planner *)
    destruct Hinv as (Hns & Hval & Hcalls).
    rewrite superstep_planner.
    set (state' := merge (values c)
                     (fst (planner_node llm (values c) (llm_calls c)))).
    assert (Hplan' : plan state' = planned_from llm start)
      by (unfold state'; rewrite Hval, Hcalls; reflexivity).
    assert (Hidx' : current_step_index state' = 0) by reflexivity.
    assert (Hlog' : execution_log state' = [])
      by (unfold state'; rewrite Hval; exact Hnolog).
    assert (Htag' : tagged (py "Planner") state').
    { unfold tagged, last_name_of, state', merge, add_messages, planner_node.
      cbn [fst upd_messages messages].
      rewrite last_or_none_snoc. reflexivity. }
    assert (Hidx : current_step_index (values c) = 0)
      by (rewrite Hval; exact Hnoindex).
    clearbody state'. subst ns.
    eexists. split; [reflexivity|].
    unfold run_invariant_from, steps_left. rewrite Hp.
    cbn [pending values llm_calls].
    rewrite (tagged_truthy _ _ Htag') by discriminate.
    rewrite Hidx'.
    split; [right; split; [|split; [reflexivity | left; split; trivial]]|].
    + unfold planning_done_from. rewrite Hplan', Hidx', Hlog'.
      repeat split. simpl. lia.
    + simpl. lia.
  - (* Executor *)
    destruct Hinv as (Hdone & Hdec & Hlt).
    destruct Hdone as (Hplan & Hpt & Het & Hlog & Hle).
    assert (Hidx : 0 <= current_step_index (values c)
                   < Z.of_nat (length (plan (values c)))) by lia.
    destruct (executor_node_runs llm (values c) (llm_calls c) Hidx)
      as [explanation [entry Hrun]].
    unfold superstep. cbn [invoke]. rewrite Hrun.
    cbn [bind fst snd successor]. eexists. split; [reflexivity|].
    unfold run_invariant_from, steps_left. rewrite Hp.
    cbn [pending values llm_calls].
    unfold merge, add_messages, last_name_of, last_value, tagged.
    cbn [upd_messages upd_user_goal upd_plan upd_current_step_index
         upd_execution_log upd_next_step upd_status
         messages user_goal plan current_step_index execution_log].
    rewrite last_or_none_snoc.
    assert (Hlen : length (plan (values c)) = length planned)
      by (rewrite Hplan; reflexivity).
    split.
    + right. unfold planning_done_from, last_name_of.
      cbn [messages user_goal plan current_step_index execution_log].
      rewrite last_or_none_snoc, planner_turns_snoc, executor_turns_snoc,
        decisions_snoc, length_app.
      split; [repeat split; try assumption; simpl; lia|].
      split; [lia | right; split; [reflexivity | lia]].
    + change (truthy_opt (name (HumanMessage explanation (Some (py "Executor")))))
        with true.
      cbv iota. lia.
Qed.

Lemma invariant_from_decisions (ns : list Node) (c : Config) :
  run_invariant_from llm start ns c ->
  (decisions ns <= length planned + 2)%nat /\
  (pending c = END ->
   decisions ns = (length planned + 2)%nat /\
   plan (values c) = planned /\
   current_step_index (values c) = Z.of_nat (length planned) /\
   length (execution_log (values c)) = length planned /\
   next_step (values c) = py "FINISH" /\
   status (values c) = py "supervising").
Proof.
  unfold run_invariant_from, planning_done_from. cbv zeta.
  destruct (pending c) as [[| |]|].
  - intros [(-> & _) | ((Hplan & _ & _ & _ & Hle) & Hdec & _)];
      (split; [|discriminate]); [unfold decisions; simpl; lia|].
    rewrite Hplan in Hle. lia.
  - intros (-> & _). split; [unfold decisions; simpl; lia | discriminate].
  - intros ((Hplan & _) & Hdec & Hlt). split; [|discriminate].
    rewrite Hplan in Hlt. lia.
  - intros ((Hplan & _ & _ & Hlog & _) & Hdec & Hidx & _ & Hnext & Hstatus).
    rewrite Hplan in Hidx.
    split; [lia|]. intros _. repeat split; try assumption; lia.
Qed.

(** The loop from a configuration that satisfies the invariant keeps to the
    invariant, and stops at [END] or for want of steps, the latter exactly
    when the budget does not exceed the number of steps left. *)
Lemma run_graph_from (limit : nat) :
  forall (ns0 : list Node) (c : Config),
    run_invariant_from llm start ns0 c ->
    exists c',
      run_invariant_from llm start (ns0 ++ fst (run_graph llm limit c)) c' /\
      ((snd (run_graph llm limit c) = Ok c' /\ pending c' = END /\
        (steps_left (length planned) c < limit)%nat) \/
       (snd (run_graph llm limit c) = Raise GraphRecursionError /\
        (limit <= steps_left (length planned) c)%nat)).
Proof.
  induction limit as [|limit IH]; intros ns0 c Hinv.
  - exists c. simpl. rewrite app_nil_r.
    split; [exact Hinv | right; split; [reflexivity | lia]].
  - destruct (pending c) as [n|] eqn:Hp.
    + destruct (run_step_from ns0 c n Hinv Hp) as (c1 & Hstep & Hinv1 & Hleft).
      destruct (IH (ns0 ++ [n]) c1 Hinv1) as (c' & Hinv' & Hend).
      exists c'. simpl. rewrite Hp, Hstep.
      destruct (run_graph llm limit c1) as [ns r]. simpl in *.
      rewrite <- app_assoc in Hinv'. simpl in Hinv'.
      split; [exact Hinv'|].
      destruct Hend as [(Hok & Hend & Hlimit) | [Hraise Hlimit]];
        [left; repeat split; [exact Hok | exact Hend | lia]
        | right; split; [exact Hraise | lia]].
    + exists c. unfold steps_left. simpl. rewrite Hp. simpl.
      rewrite app_nil_r.
      split; [exact Hinv | left; repeat split; lia].
Qed.

End ThreadRuns.

(** Whatever the thread holds, a call starts from a state without an
    author tag on its last message, without a plan and without a step
    done. *)
Lemma thread_state_start (saved : option AgentState) (goal : str) :
  start_state (thread_state saved goal).
Proof.
  unfold start_state. destruct saved as [state|].
  - unfold thread_state, merge, as_update, add_messages, last_value.
    cbn [upd_messages upd_plan upd_current_step_index upd_execution_log
         messages plan current_step_index execution_log initial_state].
    unfold last_name_of. rewrite last_or_none_snoc.
    repeat split.
  - repeat split.
Qed.

(** C2. For every goal, every model, whatever the thread holds and for every
    recursion limit, the run ends. The runner refuses a limit of zero; with
    a limit of at least [2 * len(plan) + 4], the [2 * len(plan) + 3] steps
    of the run and the round that sees the run has ended, the run reaches
    [END]; with a limit in between the runner stops the run. In every case
    the run takes at most [len(plan) + 2] Supervisor decisions, where [plan]
    is the plan the Planner turn produces, and exactly that many when it
    reaches [END]. *)
Theorem run_terminates (llm : nat -> list BaseMessage -> str)
  (saved : option AgentState) (goal : str) (limit : nat) :
  let steps := planned_from llm (thread_state saved goal) in
  let ns := fst (graph_stream llm limit (thread_config saved goal)) in
  (decisions ns <= length steps + 2)%nat /\
  (((2 * length steps + 4 <= limit)%nat /\
    exists final,
      run_once llm limit saved goal = Ok final /\
      plan final = steps /\
      decisions ns = (length steps + 2)%nat) \/
   ((1 <= limit < 2 * length steps + 4)%nat /\
    run_once llm limit saved goal = Raise GraphRecursionError) \/
   (limit = 0%nat /\ run_once llm limit saved goal = Raise ValueError)).
Proof.
  cbv zeta. unfold run_once.
  destruct limit as [|limit].
  - split; [unfold decisions; simpl; lia|].
    right. right. split; reflexivity.
  - pose proof (thread_state_start saved goal) as Hstart.
    change (graph_stream llm (S limit) (thread_config saved goal))
      with (run_graph llm (S limit) (thread_config saved goal)).
    assert (Hinit : run_invariant_from llm (thread_state saved goal) []
                      (thread_config saved goal))
      by (left; repeat split).
    destruct (run_graph_from llm _ Hstart (S limit) [] _ Hinit)
      as (c' & Hinv & Hend).
    simpl app in Hinv.
    destruct (invariant_from_decisions llm _ _ c' Hinv) as [Hbound Hfinal].
    split; [exact Hbound|].
    assert (Hleft : steps_left
                      (length (planned_from llm (thread_state saved goal)))
                      (thread_config saved goal)
                    = (2 * length (planned_from llm (thread_state saved goal))
                       + 3)%nat).
    { unfold steps_left. cbn [pending values thread_config].
      destruct Hstart as (-> & _). reflexivity. }
    rewrite Hleft in Hend.
    destruct Hend as [(Hok & Hp & Hlimit) | [Hraise Hlimit]].
    + left. split; [lia|]. exists (values c').
      rewrite Hok. destruct (Hfinal Hp) as (Hdec & Hplan & _).
      repeat split; assumption.
    + right. left. split; [lia|]. rewrite Hraise. reflexivity.
Qed.

(** A run that reaches [END] within a budget does the same within any
    larger one. *)
Lemma run_graph_more_budget (llm : nat -> list BaseMessage -> str)
  (limit : nat) :
  forall (limit' : nat) (c c' : Config) (ns : list Node),
    run_graph llm limit c = (ns, Ok c') ->
    (limit <= limit')%nat ->
    run_graph llm limit' c = (ns, Ok c').
Proof.
  induction limit as [|limit IH]; intros limit' c c' ns Hrun Hle;
    [discriminate|].
  destruct limit' as [|limit']; [lia|].
  cbn [run_graph] in Hrun. cbn [run_graph].
  destruct (pending c) as [n|]; [|exact Hrun].
  destruct (superstep llm n c) as [c1|e]; [|discriminate].
  destruct (run_graph llm limit c1) as [ns1 r1] eqn:Hrest.
  injection Hrun as <- ->.
  rewrite (IH limit' c1 c' ns1 Hrest) by lia. reflexivity.
Qed.

Lemma run_once_more_budget (llm : nat -> list BaseMessage -> str)
  (limit limit' : nat) (saved : option AgentState) (goal : str)
  (final : AgentState) :
  run_once llm limit saved goal = Ok final ->
  (limit <= limit')%nat ->
  run_once llm limit' saved goal = Ok final.
Proof.
  unfold run_once. intros Hrun Hle.
  destruct limit as [|limit]; [discriminate|].
  destruct limit' as [|limit']; [lia|].
  change (graph_stream llm (S limit) (thread_config saved goal))
    with (run_graph llm (S limit) (thread_config saved goal)) in Hrun.
  change (graph_stream llm (S limit') (thread_config saved goal))
    with (run_graph llm (S limit') (thread_config saved goal)).
  destruct (run_graph llm (S limit) (thread_config saved goal))
    as [ns [c|e]] eqn:Hgraph; [|discriminate].
  rewrite (run_graph_more_budget llm (S limit) (S limit') _ _ _ Hgraph Hle).
  exact Hrun.
Qed.

(** ** The end-to-end scenario *)

(** The scenario's run on a new thread with a recursion limit of exactly
    eight: seven steps, and the round that sees the run has ended. *)
Lemma scenario_run_graph :
  run_graph mock_llm 8 (initial_config scenario_goal) =
  ([Supervisor; Planner; Supervisor; Executor; Supervisor; Executor;
    Supervisor],
   Ok {| pending := END; values := scenario_final; llm_calls := 3 |}).
Proof. vm_compute. reflexivity. Qed.

(** Whatever the thread holds, the scenario's Planner turn gives the two
    steps. *)
Lemma scenario_planned (saved : option AgentState) :
  planned_from mock_llm (thread_state saved scenario_goal)
  = [py "Install agent"; py "Configure dashboards"].
Proof. destruct saved; reflexivity. Qed.

(** C5, as the code has it. With the scenario's goal and mock model and a
    recursion limit of at least eight, whatever the thread holds, the run
    returns a state with the two parsed steps as [plan],
    [current_step_index] 2 and two log entries; the run ends on the
    Supervisor turn that decides to finish, the fourth decision, so
    [next_step] is "FINISH" and [status] is "supervising". On a new thread
    the state returned and the nodes invoked are given in full. *)
Theorem scenario_final_state (limit : nat) (saved : option AgentState) :
  (8 <= limit)%nat ->
  exists final,
    run_once mock_llm limit saved scenario_goal = Ok final /\
    plan final = [py "Install agent"; py "Configure dashboards"] /\
    current_step_index final = 2 /\
    length (execution_log final) = 2%nat /\
    next_step final = py "FINISH" /\
    status final = py "supervising" /\
    decisions (fst (graph_stream mock_llm limit
                      (thread_config saved scenario_goal))) = 4%nat /\
    (saved = None ->
     final = scenario_final /\
     fst (graph_stream mock_llm limit (thread_config saved scenario_goal))
       = [Supervisor; Planner; Supervisor; Executor; Supervisor; Executor;
          Supervisor]).
Proof.
  intros Hlimit. unfold run_once.
  destruct limit as [|limit]; [lia|].
  change (graph_stream mock_llm (S limit) (thread_config saved scenario_goal))
    with (run_graph mock_llm (S limit) (thread_config saved scenario_goal)).
  pose proof (thread_state_start saved scenario_goal) as Hstart.
  assert (Hinit : run_invariant_from mock_llm (thread_state saved scenario_goal)
                    [] (thread_config saved scenario_goal))
    by (left; repeat split).
  destruct (run_graph_from mock_llm _ Hstart (S limit) [] _ Hinit)
    as (c' & Hinv & Hend).
  simpl app in Hinv.
  destruct (invariant_from_decisions mock_llm _ _ c' Hinv) as [_ Hfinal].
  rewrite scenario_planned in Hfinal, Hend.
  assert (Hleft : steps_left 2 (thread_config saved scenario_goal) = 7%nat).
  { unfold steps_left. cbn [pending values thread_config].
    destruct Hstart as (-> & _). reflexivity. }
  cbn [length] in Hend. rewrite Hleft in Hend.
  destruct Hend as [(Hok & Hp & _) | [_ Hshort]]; [|lia].
  destruct (Hfinal Hp) as (Hdec & Hplan & Hidx & Hlog & Hnext & Hstatus).
  exists (values c'). rewrite Hok.
  split; [reflexivity|]. split; [exact Hplan|]. split; [exact Hidx|].
  split; [exact Hlog|]. split; [exact Hnext|]. split; [exact Hstatus|].
  split; [exact Hdec|].
  intros ->.
  assert (Hmore : run_graph mock_llm (S limit) (initial_config scenario_goal)
                  = ([Supervisor; Planner; Supervisor; Executor; Supervisor;
                      Executor; Supervisor],
                     Ok {| pending := END; values := scenario_final;
                           llm_calls := 3 |}))
    by (apply (run_graph_more_budget mock_llm 8 (S limit) _ _ _
                 scenario_run_graph Hlimit)).
  change (thread_config None scenario_goal)
    with (initial_config scenario_goal) in Hok |- *.
  rewrite Hmore in Hok |- *. cbn [fst snd] in Hok |- *.
  injection Hok as <-. split; reflexivity.
Qed.

(** C5, witness: the first call in a process, with a limit of 25. *)
Lemma scenario_final_state_witness :
  (8 <= 25)%nat /\
  exists final,
    run_once mock_llm 25 None scenario_goal = Ok final /\
    plan final = [py "Install agent"; py "Configure dashboards"] /\
    current_step_index final = 2 /\
    length (execution_log final) = 2%nat /\
    next_step final = py "FINISH" /\
    status final = py "supervising" /\
    decisions (fst (graph_stream mock_llm 25
                      (thread_config None scenario_goal))) = 4%nat /\
    (@None AgentState = None ->
     final = scenario_final /\
     fst (graph_stream mock_llm 25 (thread_config None scenario_goal))
       = [Supervisor; Planner; Supervisor; Executor; Supervisor; Executor;
          Supervisor]).
Proof.
  assert (H : (8 <= 25)%nat) by lia.
  split; [exact H | exact (scenario_final_state 25 None H)].
Defined.

(** C5, counterexample. Whatever the recursion limit, the scenario's run on
    a new thread does not return a state with the claimed plan, index and
    log length and [status] "executing". *)
Lemma scenario_status_not_executing :
  ~ exists limit final,
      run_once mock_llm limit None (py "Set up monitoring") = Ok final /\
      plan final = [py "Install agent"; py "Configure dashboards"] /\
      current_step_index final = 2 /\
      length (execution_log final) = 2%nat /\
      status final = py "executing".
Proof.
  intros (limit & final & Hrun & _ & _ & _ & Hstatus).
  assert (Hsame : Ok final = Ok scenario_final).
  { rewrite <- (run_once_more_budget mock_llm limit (Nat.max limit 8)
                  None scenario_goal final Hrun) by lia.
    unfold run_once.
    destruct (Nat.max limit 8) as [|budget] eqn:Hmax; [lia|].
    change (graph_stream mock_llm (S budget) (thread_config None scenario_goal))
      with (run_graph mock_llm (S budget) (initial_config scenario_goal)).
    rewrite (run_graph_more_budget mock_llm 8 (S budget) _ _ _
               scenario_run_graph) by lia.
    reflexivity. }
  injection Hsame as ->. discriminate Hstatus.
Qed.

(** * Further properties *)

(** ** Stripping *)

Lemma dropwhile_split {A} (p : A -> bool) (l : list A) :
  exists pre, l = pre ++ dropwhile p l /\ forallb p pre = true.
Proof.
  induction l as [|x l IH]; simpl.
  - exists []. split; reflexivity.
  - destruct (p x) eqn:Hp.
    + destruct IH as (pre & Heq & Hall). exists (x :: pre). simpl.
      rewrite Hp, Hall. split; [congruence | reflexivity].
    + exists []. split; reflexivity.
Qed.

Lemma dropwhile_head {A} (p : A -> bool) (l : list A) (x : A) (r : list A) :
  dropwhile p l = x :: r -> p x = false.
Proof.
  induction l as [|y l IH]; simpl; [discriminate|].
  destruct (p y) eqn:Hp; [exact IH|]. intros H. injection H as <- _. exact Hp.
Qed.

Lemma dropwhile_keep {A} (p : A -> bool) (x : A) (r : list A) :
  p x = false -> dropwhile p (x :: r) = x :: r.
Proof. intros Hp. simpl. rewrite Hp. reflexivity. Qed.

(** A string whose last character is not whitespace keeps it when stripped,
    and stripping only removes its leading whitespace. *)
Lemma strip_last (s r : str) (c : N) :
  rev s = c :: r -> Py_UNICODE_ISSPACE c = false ->
  strip s = lstrip s /\ exists r', rev (strip s) = c :: r'.
Proof.
  intros Hrev Hc. unfold strip, rstrip, lstrip.
  destruct (dropwhile_split Py_UNICODE_ISSPACE s) as (pre & Heq & Hpre).
  assert (Hlast : exists r', rev (dropwhile Py_UNICODE_ISSPACE s) = c :: r').
  { destruct (rev (dropwhile Py_UNICODE_ISSPACE s)) as [|d r'] eqn:Hd.
    - apply (f_equal (@rev N)) in Hd. rewrite rev_involutive in Hd.
      simpl in Hd. rewrite Hd, app_nil_r in Heq. subst pre.
      assert (Hin : In c s) by (apply in_rev; rewrite Hrev; left; reflexivity).
      rewrite forallb_forall in Hpre. rewrite (Hpre c Hin) in Hc. discriminate.
    - rewrite Heq, rev_app_distr, Hd in Hrev. simpl in Hrev.
      injection Hrev as -> _. exists r'. reflexivity. }
  destruct Hlast as (r' & Hr').
  rewrite Hr', (dropwhile_keep _ _ _ Hc), <- Hr', rev_involutive.
  split; [reflexivity | exists r'; exact Hr'].
Qed.

(** What stripping leaves is clean, unless it is empty. *)
Lemma strip_clean (s : str) : strip s <> [] -> clean (strip s) = true.
Proof.
  unfold strip, rstrip, lstrip, clean. intros Hne.
  set (t := dropwhile Py_UNICODE_ISSPACE s) in *.
  destruct (dropwhile Py_UNICODE_ISSPACE (rev t)) as [|c u] eqn:Hu;
    [contradiction Hne; reflexivity|].
  pose proof (dropwhile_head _ _ _ _ Hu) as Hc.
  destruct (dropwhile_split Py_UNICODE_ISSPACE (rev t)) as (pre & Heq & _).
  rewrite Hu in Heq. apply (f_equal (@rev N)) in Heq.
  rewrite rev_involutive, rev_app_distr in Heq.
  destruct (rev (c :: u)) as [|first rest] eqn:Hfirst;
    [contradiction Hne; reflexivity|].
  assert (Hback : rev (first :: rest) = c :: u)
    by (rewrite <- Hfirst; apply rev_involutive).
  rewrite Hback. simpl in Heq. unfold t in Heq.
  rewrite (dropwhile_head _ _ _ _ Heq), Hc. reflexivity.
Qed.

(** Stripping leaves a clean string as it is. *)
Lemma strip_of_clean (s : str) : clean s = true -> strip s = s.
Proof.
  unfold clean. destruct s as [|first rest]; [discriminate|].
  destruct (rev (first :: rest)) as [|last r] eqn:Hrev; [discriminate|].
  intros H. apply andb_true_iff in H as [Hfirst Hlast].
  apply negb_true_iff in Hfirst, Hlast.
  destruct (strip_last _ _ _ Hrev Hlast) as [-> _].
  unfold lstrip. apply dropwhile_keep. exact Hfirst.
Qed.

Lemma clean_nonempty (s : str) : clean s = true -> s <> [].
Proof. destruct s; [discriminate | discriminate]. Qed.

Lemma clean_last (s : str) :
  clean s = true -> exists c r, rev s = c :: r /\ Py_UNICODE_ISSPACE c = false.
Proof.
  unfold clean. destruct s as [|first rest]; [discriminate|].
  destruct (rev (first :: rest)) as [|last r]; [discriminate|].
  intros H. apply andb_true_iff in H as [_ Hlast].
  apply negb_true_iff in Hlast. exists last, r. split; [reflexivity | exact Hlast].
Qed.

(** A string that ends with a character other than whitespace strips to a
    clean string. *)
Lemma strip_clean_of_last (s r : str) (c : N) :
  rev s = c :: r -> Py_UNICODE_ISSPACE c = false -> clean (strip s) = true.
Proof.
  intros Hrev Hc. apply strip_clean.
  destruct (strip_last s r c Hrev Hc) as [_ (r' & Hr')].
  intros Hnil. rewrite Hnil in Hr'. discriminate.
Qed.

Lemma strip_idempotent (s : str) : strip (strip s) = strip s.
Proof.
  destruct (strip s) as [|c r] eqn:Hs; [reflexivity|].
  rewrite <- Hs. apply strip_of_clean, strip_clean. rewrite Hs. discriminate.
Qed.

(** ** The step parser *)

(** The parser, line by line: the lines are stripped, the empty ones dropped,
    and the others freed of their markers, in order. *)
Lemma _parse_plan_lines (text : str) :
  _parse_plan text =
  map without_markers (filter truthy (map strip (splitlines text))).
Proof.
  unfold _parse_plan.
  match goal with |- fold_left ?f _ _ = _ => set (F := f) end.
  assert (HF : forall steps raw,
    F steps raw = if truthy (strip raw)
                  then steps ++ [without_markers (strip raw)]
                  else steps).
  { intros steps raw. unfold F, without_markers.
    destruct (truthy (strip raw)); reflexivity. }
  clearbody F.
  assert (Hgen : forall lines steps,
    fold_left F lines steps =
    steps ++ map without_markers (filter truthy (map strip lines))).
  { induction lines as [|raw lines IH]; intros steps; cbn [fold_left map filter].
    - rewrite app_nil_r. reflexivity.
    - rewrite IH, HF. destruct (truthy (strip raw)); [|reflexivity].
      cbn [map]. rewrite <- app_assoc. reflexivity. }
  apply Hgen.
Qed.

Lemma startswith_app (s prefix : str) :
  startswith s prefix = true -> s = prefix ++ skipn (length prefix) s.
Proof.
  revert s. induction prefix as [|p prefix IH]; intros s; [reflexivity|].
  destruct s as [|c s]; simpl; [discriminate|].
  intros H. apply andb_true_iff in H as [Hc Hrest].
  apply N.eqb_eq in Hc. subst c. f_equal. apply IH. exact Hrest.
Qed.

(** Where the separator is found, the string is the text before it, the
    separator and the text after it. *)
Lemma partition_app (s sep before after : str) :
  partition s sep = Some (before, after) -> s = before ++ sep ++ after.
Proof.
  revert before. induction s as [|c s IH]; intros before; cbn [partition].
  - destruct (startswith [] sep) eqn:Hs; [|discriminate].
    intros H. injection H as <- <-. apply (startswith_app _ _ Hs).
  - destruct (startswith (c :: s) sep) eqn:Hs.
    + intros H. injection H as <- <-. apply (startswith_app _ _ Hs).
    + destruct (partition s sep) as [[b a]|]; [|discriminate].
      intros H. injection H as <- <-. simpl. f_equal. apply IH. reflexivity.
Qed.

(** The end of a string, when not empty, ends as the string does. *)
Lemma rev_suffix (pre suf r : str) (c : N) :
  rev (pre ++ suf) = c :: r -> suf <> [] -> exists r', rev suf = c :: r'.
Proof.
  rewrite rev_app_distr. intros Hrev Hne.
  destruct (rev suf) as [|d r'] eqn:Hsuf.
  - apply (f_equal (@rev N)) in Hsuf. rewrite rev_involutive in Hsuf.
    contradiction.
  - simpl in Hrev. injection Hrev as -> _. exists r'. reflexivity.
Qed.

(** Cutting a clean line after a space leaves something that strips to a
    clean string. *)
Lemma clean_after_space (pre suf : str) :
  clean (pre ++ [32%N] ++ suf) = true -> clean (strip suf) = true.
Proof.
  intros Hclean. destruct (clean_last _ Hclean) as (c & r & Hrev & Hc).
  assert (Hne : suf <> []).
  { intros ->. rewrite app_nil_r, rev_app_distr in Hrev. simpl in Hrev.
    injection Hrev as <- _. discriminate. }
  rewrite app_assoc in Hrev.
  destruct (rev_suffix _ _ _ _ Hrev Hne) as (r' & Hr').
  exact (strip_clean_of_last _ _ _ Hr' Hc).
Qed.

Lemma without_markers_clean (line : str) :
  clean line = true -> clean (without_markers line) = true.
Proof.
  intros Hclean. unfold without_markers.
  assert (Hbullets : forall prefixes l,
    (forall prefix, In prefix prefixes -> exists x, prefix = [x; 32%N]) ->
    clean l = true ->
    clean (fold_left
             (fun line prefix =>
                if startswith line prefix
                then strip (skipn (length prefix) line)
                else line) prefixes l) = true).
  { induction prefixes as [|prefix prefixes IH]; intros l Hshape Hl;
      [exact Hl|].
    cbn [fold_left]. apply IH; [intros q Hq; apply Hshape; right; exact Hq|].
    destruct (startswith l prefix) eqn:Hs; [|exact Hl].
    destruct (Hshape prefix (or_introl eq_refl)) as (x & ->).
    pose proof (startswith_app _ _ Hs) as Heq.
    rewrite Heq in Hl.
    exact (clean_after_space [x] _ Hl). }
  cbv zeta.
  set (l := fold_left _ bullet_prefixes line).
  assert (Hl : clean l = true).
  { apply Hbullets; [|exact Hclean].
    intros prefix [<- | [<- | [<- | []]]]; eexists; reflexivity. }
  destruct (contains l (py ". ")) eqn:Hin; cbn [andb]; [|exact Hl].
  destruct (isdigit (nth 0 (split1 l (py ". ")) [])); [|exact Hl].
  unfold split1. destruct (partition l (py ". ")) as [[before after]|] eqn:Hp.
  - cbn [nth]. apply partition_app in Hp. rewrite Hp in Hl.
    change (py ". " ++ after) with ([46%N] ++ [32%N] ++ after) in Hl.
    rewrite app_assoc in Hl.
    exact (clean_after_space (before ++ [46%N]) after Hl).
  - exfalso. destruct (contains_split1 l (py ". ") Hin) as (b & a & Hsplit).
    unfold split1 in Hsplit. rewrite Hp in Hsplit. discriminate.
Qed.

Lemma filter_map_length {A B} (f : A -> B) (p : B -> bool) (l : list A) :
  length (filter p (map f l)) = length (filter (fun x => p (f x)) l).
Proof.
  induction l as [|x l IH]; simpl; [reflexivity|].
  destruct (p (f x)); simpl; rewrite IH; reflexivity.
Qed.

(** The parser finds no step exactly when every line is blank. *)
Lemma _parse_plan_nil (text : str) :
  _parse_plan text = [] <-> forallb blank (splitlines text) = true.
Proof.
  rewrite _parse_plan_lines. generalize (splitlines text) as lines.
  induction lines as [|raw lines IH]; cbn [map filter forallb].
  - split; intros _; reflexivity.
  - unfold blank at 1. destruct (truthy (strip raw)); cbn [negb map andb].
    + split; discriminate.
    + exact IH.
Qed.

Lemma _parse_plan_clean (text : str) (step : str) :
  In step (_parse_plan text) -> clean step = true.
Proof.
  rewrite _parse_plan_lines. intros Hin.
  apply in_map_iff in Hin as (line & <- & Hline).
  apply filter_In in Hline as [Hline Hne].
  apply in_map_iff in Hline as (raw & <- & _).
  apply without_markers_clean, strip_clean.
  destruct (strip raw); [discriminate | discriminate].
Qed.

(** X1. The parser returns one step for each line that is not blank, in the
    order of the lines: as many steps as such lines, and none exactly when
    every line is blank (as for the empty text). *)
Theorem parse_plan_one_step_per_line (text : str) :
  length (_parse_plan text) =
    length (filter (fun line => negb (blank line)) (splitlines text)) /\
  (length (_parse_plan text) <= length (splitlines text))%nat /\
  (_parse_plan text = [] <-> forallb blank (splitlines text) = true).
Proof.
  split; [|split; [|apply _parse_plan_nil]];
    rewrite _parse_plan_lines, length_map, filter_map_length.
  - f_equal. apply filter_ext. intros line. unfold blank.
    rewrite negb_involutive. reflexivity.
  - apply filter_length_le.
Qed.

(** X2. No step the parser returns is empty, and none starts or ends with
    whitespace: stripping a step leaves it as it is. *)
Theorem parse_plan_steps_clean (text : str) (step : str) :
  In step (_parse_plan text) -> step <> [] /\ strip step = step.
Proof.
  intros Hin. pose proof (_parse_plan_clean text step Hin) as Hclean.
  split; [exact (clean_nonempty _ Hclean) | exact (strip_of_clean _ Hclean)].
Qed.

(** X2, witness: the second step of the scenario's plan. *)
Lemma parse_plan_steps_clean_witness :
  In (py "Configure dashboards")
     (_parse_plan (py "1. Install agent" ++ LF ++ py "2. Configure dashboards")) /\
  py "Configure dashboards" <> [] /\
  strip (py "Configure dashboards") = py "Configure dashboards".
Proof.
  assert (H : In (py "Configure dashboards")
                (_parse_plan (py "1. Install agent" ++ LF
                              ++ py "2. Configure dashboards")))
    by (right; left; reflexivity).
  split; [exact H | exact (parse_plan_steps_clean _ _ H)].
Defined.

(** ** Numbered lists *)

Lemma ranges_meet_false (t1 t2 : list (N * N)) (c : N) :
  ranges_meet t1 t2 = false -> in_ranges t1 c = true -> in_ranges t2 c = false.
Proof.
  intros Hmeet H1. destruct (in_ranges t2 c) eqn:H2; [|reflexivity].
  unfold in_ranges in H1, H2.
  apply existsb_exists in H1 as (r1 & Hin1 & Hr1).
  apply existsb_exists in H2 as (r2 & Hin2 & Hr2).
  apply andb_true_iff in Hr1 as [Hlo1 Hhi1], Hr2 as [Hlo2 Hhi2].
  apply N.leb_le in Hlo1, Hhi1, Hlo2, Hhi2.
  assert (Hcontra : ranges_meet t1 t2 = true).
  { unfold ranges_meet. apply existsb_exists. exists r1. split; [exact Hin1|].
    apply existsb_exists. exists r2. split; [exact Hin2|].
    apply andb_true_iff. split; apply N.leb_le; lia. }
  congruence.
Qed.

(** A digit is no whitespace, no line boundary, no full stop and starts no
    bullet. *)
Lemma digit_is_no_marker (c : N) :
  Py_UNICODE_ISDIGIT c = true ->
  Py_UNICODE_ISSPACE c = false /\
  Py_UNICODE_ISLINEBREAK c = false /\
  in_ranges [(42, 42); (45, 46); (8226, 8226)]%N c = false.
Proof.
  intros Hdigit. repeat split;
    (eapply ranges_meet_false; [|exact Hdigit]); vm_compute; reflexivity.
Qed.

Lemma splitlines_from_line (cur line rest : str) :
  single_line line = true ->
  splitlines_from cur (line ++ rest) = splitlines_from (rev line ++ cur) rest.
Proof.
  revert cur. induction line as [|c line IH]; intros cur Hline; [reflexivity|].
  cbn [single_line forallb] in Hline.
  apply andb_true_iff in Hline as [Hc Hline]. apply negb_true_iff in Hc.
  cbn [app splitlines_from]. rewrite Hc, (IH (c :: cur) Hline).
  cbn [rev]. rewrite <- app_assoc. reflexivity.
Qed.

(** Lines without line boundaries, none of them empty, joined by line feeds,
    split into themselves. *)
Lemma splitlines_join_lines (lines : list str) :
  (forall line, In line lines -> line <> [] /\ single_line line = true) ->
  splitlines (join_lines lines) = lines.
Proof.
  unfold splitlines. induction lines as [|line lines IH]; intros Hlines;
    [reflexivity|].
  destruct (Hlines line (or_introl eq_refl)) as [Hne Hline].
  assert (IH' : splitlines_from [] (join_lines lines) = lines)
    by (apply IH; intros l Hl; apply Hlines; right; exact Hl).
  destruct lines as [|next lines].
  - cbn [join_lines]. rewrite <- (app_nil_r line) at 1.
    rewrite (splitlines_from_line [] line [] Hline), app_nil_r.
    cbn [splitlines_from].
    destruct (rev line) as [|c r] eqn:Hrev.
    + apply (f_equal (@rev N)) in Hrev. rewrite rev_involutive in Hrev.
      contradiction.
    + cbn [truthy]. rewrite <- Hrev, rev_involutive. reflexivity.
  - change (join_lines (line :: next :: lines))
      with (line ++ 10%N :: join_lines (next :: lines)).
    rewrite (splitlines_from_line [] line _ Hline), app_nil_r.
    cbn [splitlines_from].
    change (Py_UNICODE_ISLINEBREAK 10) with true. cbv iota.
    rewrite rev_involutive. f_equal.
    destruct (join_lines (next :: lines)) as [|d rest'] eqn:Hjoin.
    + exact IH'.
    + change ((10 =? 13)%N && (d =? 10)%N) with false. cbv iota. exact IH'.
Qed.

(** After a label without a full stop, [". "] is first found right behind
    the label. *)
Lemma partition_after_label (label tail : str) :
  forallb (fun c => negb (c =? 46)%N) label = true ->
  partition (label ++ py ". " ++ tail) (py ". ") = Some (label, tail) /\
  contains (label ++ py ". " ++ tail) (py ". ") = true.
Proof.
  induction label as [|c label IH]; intros Hlabel.
  - change ([] ++ py ". " ++ tail) with (46%N :: 32%N :: tail).
    change (py ". ") with [46%N; 32%N]. destruct tail; split; reflexivity.
  - cbn [forallb] in Hlabel. apply andb_true_iff in Hlabel as [Hc Hlabel].
    apply negb_true_iff in Hc. destruct (IH Hlabel) as [Hpart Hin].
    change ((c :: label) ++ py ". " ++ tail)
      with (c :: (label ++ py ". " ++ tail)).
    cbn [partition contains].
    assert (Hstart : startswith (c :: label ++ py ". " ++ tail) (py ". ")
                     = false).
    { change (py ". ") with [46%N; 32%N]. cbn [startswith].
      rewrite Hc. reflexivity. }
    rewrite Hstart, Hpart, Hin. split; reflexivity.
Qed.

Lemma digit_eqb (d x : N) :
  Py_UNICODE_ISDIGIT d = true ->
  in_ranges [(42, 42); (45, 46); (8226, 8226)]%N x = true ->
  (d =? x)%N = false.
Proof.
  intros Hd Hx. destruct (N.eqb_spec d x) as [->|]; [|reflexivity].
  destruct (digit_is_no_marker x Hd) as (_ & _ & Hno). congruence.
Qed.

(** A line made of a label of digits, a full stop, a space and a clean step:
    stripping leaves it whole, and without its markers it is the step. *)
Lemma numbered_line (label step : str) :
  isdigit label = true -> step <> [] -> strip step = step ->
  strip (numbered (label, step)) = numbered (label, step) /\
  numbered (label, step) <> [] /\
  without_markers (numbered (label, step)) = step.
Proof.
  intros Hlabel Hne Hstrip. unfold numbered. cbn [fst snd].
  unfold isdigit in Hlabel. apply andb_true_iff in Hlabel as [Hsome Hdigits].
  destruct label as [|d label]; [discriminate|].
  cbn [forallb] in Hdigits. apply andb_true_iff in Hdigits as [Hd Hrest].
  assert (Hclean : clean step = true)
    by (rewrite <- Hstrip; apply strip_clean; rewrite Hstrip; exact Hne).
  destruct (clean_last _ Hclean) as (c & r & Hrev & Hc).
  destruct (digit_is_no_marker d Hd) as (Hspace & _ & _).
  set (line := (d :: label) ++ py ". " ++ step).
  assert (Hline : clean line = true).
  { unfold clean, line. cbn [app rev].
    rewrite !rev_app_distr, Hrev. cbn [app]. rewrite Hspace, Hc. reflexivity. }
  split; [exact (strip_of_clean _ Hline)|].
  split; [discriminate|].
  assert (Hdots : forallb (fun c => negb (c =? 46)%N) (d :: label) = true).
  { apply forallb_forall. intros x Hx. apply negb_true_iff.
    apply digit_eqb; [|reflexivity].
    assert (Hall : forallb Py_UNICODE_ISDIGIT (d :: label) = true)
      by (cbn [forallb]; rewrite Hd, Hrest; reflexivity).
    rewrite forallb_forall in Hall. exact (Hall x Hx). }
  destruct (partition_after_label (d :: label) step Hdots) as [Hpart Hin].
  fold line in Hpart, Hin.
  unfold without_markers.
  assert (Hbullets :
    fold_left
      (fun line prefix =>
         if startswith line prefix
         then strip (skipn (length prefix) line)
         else line) bullet_prefixes line = line).
  { assert (Hno : forall x p,
      in_ranges [(42, 42); (45, 46); (8226, 8226)]%N x = true ->
      startswith line (x :: p) = false).
    { intros x p Hx. unfold line. cbn [app startswith].
      rewrite (digit_eqb d x Hd Hx). reflexivity. }
    unfold bullet_prefixes.
    change (py "- ") with [45%N; 32%N]. change (py "* ") with [42%N; 32%N].
    cbn [fold_left].
    rewrite (Hno 45%N) by reflexivity. cbv iota.
    rewrite (Hno 42%N) by reflexivity. cbv iota.
    rewrite (Hno 8226%N) by reflexivity. reflexivity. }
  rewrite Hbullets. unfold split1. rewrite Hin, Hpart. cbn [nth].
  unfold isdigit. cbn [truthy forallb]. rewrite Hd, Hrest. cbn [andb].
  exact Hstrip.
Qed.

(** X3. The parser undoes the writing of a numbered list: for labels made of
    digits and steps that are not empty, hold no line boundary and neither
    start nor end with whitespace, the text with one line "label. step" per
    step parses to the steps. *)
Theorem parse_plan_numbered_list (items : list (str * str)) :
  (forall label step,
     In (label, step) items ->
     isdigit label = true /\ step <> [] /\ strip step = step /\
     single_line step = true) ->
  _parse_plan (join_lines (map numbered items)) = map snd items.
Proof.
  intros Hitems. rewrite _parse_plan_lines, splitlines_join_lines.
  - induction items as [|[label step] items IH]; [reflexivity|].
    destruct (Hitems label step (or_introl eq_refl))
      as (Hlabel & Hne & Hstrip & _).
    destruct (numbered_line label step Hlabel Hne Hstrip)
      as (Hline & Hsome & Hstep).
    assert (Htruthy : truthy (numbered (label, step)) = true)
      by (destruct (numbered (label, step)); [contradiction | reflexivity]).
    cbn [map filter]. rewrite Hline, Htruthy.
    cbn [map]. rewrite Hstep. cbn [snd]. f_equal.
    apply IH. intros l s Hin. apply Hitems. right. exact Hin.
  - intros line Hin. apply in_map_iff in Hin as ([label step] & <- & Hin).
    destruct (Hitems label step Hin) as (Hlabel & Hne & Hstrip & Hsingle).
    destruct (numbered_line label step Hlabel Hne Hstrip) as (_ & Hsome & _).
    split; [exact Hsome|].
    unfold numbered, single_line. cbn [fst snd].
    rewrite !forallb_app. fold (single_line step). rewrite Hsingle.
    unfold isdigit in Hlabel. apply andb_true_iff in Hlabel as [_ Hdigits].
    assert (Hlab : forallb (fun c => negb (Py_UNICODE_ISLINEBREAK c)) label
                   = true).
    { apply forallb_forall. intros x Hx. rewrite forallb_forall in Hdigits.
      destruct (digit_is_no_marker x (Hdigits x Hx)) as (_ & -> & _).
      reflexivity. }
    rewrite Hlab. reflexivity.
Qed.

(** X3, witness: the two lines of the scenario's plan. *)
Lemma parse_plan_numbered_list_witness :
  _parse_plan (join_lines (map numbered
     [(py "1", py "Install agent"); (py "2", py "Configure dashboards")]))
  = [py "Install agent"; py "Configure dashboards"].
Proof.
  apply (parse_plan_numbered_list
           [(py "1", py "Install agent"); (py "2", py "Configure dashboards")]).
  intros label step [H | [H | []]]; injection H as <- <-;
    repeat split; try discriminate; vm_compute; reflexivity.
Defined.

(** ** The Planner's plan *)

(** X4. Whatever the state and the model's answer, the plan the Planner
    returns has at least one step, and every step of it is a non-empty
    string without whitespace at either end. It is the fixed fallback plan
    when every line of the answer is blank, and the parsed steps
    otherwise. *)
Theorem planner_node_plan_well_formed (llm : nat -> list BaseMessage -> str)
  (state : AgentState) (calls : nat) :
  let answer := llm calls (planner_prompt (planner_goal state)) in
  exists steps,
    upd_plan (fst (planner_node llm state calls)) = Some steps /\
    steps <> [] /\
    (forall step, In step steps -> step <> [] /\ strip step = step) /\
    steps = (if forallb blank (splitlines answer)
             then fallback_steps
             else _parse_plan answer).
Proof.
  cbv zeta. unfold planner_node. cbn [fst upd_plan].
  set (answer := llm calls (planner_prompt (planner_goal state))).
  eexists. split; [reflexivity|].
  pose proof (_parse_plan_nil answer) as Hnil.
  destruct (_parse_plan answer) as [|step steps] eqn:Hparse; cbn [truthy negb].
  - rewrite (proj1 Hnil eq_refl). split; [discriminate|].
    split; [|reflexivity].
    intros step [<- | [<- | [<- | [<- | []]]]];
      (split; [discriminate | vm_compute; reflexivity]).
  - destruct (forallb blank (splitlines answer)) eqn:Hblank.
    + destruct Hnil as [_ Hnil]. discriminate (Hnil eq_refl).
    + split; [discriminate|]. split; [|reflexivity].
      intros s Hin. rewrite <- Hparse in Hin.
      pose proof (_parse_plan_clean answer s Hin) as Hclean.
      split; [exact (clean_nonempty _ Hclean)
             | exact (strip_of_clean _ Hclean)].
Qed.

(** ** The Executor's index *)

Lemma getitem_spec {A} (l : list A) (i : Z) :
  (- Z.of_nat (length l) <= i < Z.of_nat (length l) ->
   exists x, nth_error l (position l i) = Some x /\ getitem l i = Ok x) /\
  (i < - Z.of_nat (length l) \/ Z.of_nat (length l) <= i ->
   getitem l i = Raise IndexError).
Proof.
  unfold getitem, position. split.
  - intros [Hlo Hhi]. destruct (Z.ltb_spec i 0) as [Hneg | Hpos].
    + assert (Hin : (0 <=? i + Z.of_nat (length l))
                    && (i + Z.of_nat (length l) <? Z.of_nat (length l)) = true).
      { apply andb_true_iff; split; [apply Z.leb_le | apply Z.ltb_lt]; lia. }
      rewrite Hin.
      destruct (nth_error l (Z.to_nat (i + Z.of_nat (length l)))) as [x|] eqn:Hnth.
      * exists x. split; reflexivity.
      * apply nth_error_None in Hnth. lia.
    + assert (Hin : (0 <=? i) && (i <? Z.of_nat (length l)) = true).
      { apply andb_true_iff; split; [apply Z.leb_le | apply Z.ltb_lt]; lia. }
      rewrite Hin.
      destruct (nth_error l (Z.to_nat i)) as [x|] eqn:Hnth.
      * exists x. split; reflexivity.
      * apply nth_error_None in Hnth. lia.
  - intros Hout. destruct (Z.ltb_spec i 0) as [Hneg | Hpos].
    + assert (Hin : (0 <=? i + Z.of_nat (length l))
                    && (i + Z.of_nat (length l) <? Z.of_nat (length l)) = false).
      { apply andb_false_iff. left. apply Z.leb_gt. lia. }
      rewrite Hin. reflexivity.
    + assert (Hin : (0 <=? i) && (i <? Z.of_nat (length l)) = false).
      { apply andb_false_iff. right. apply Z.ltb_ge. lia. }
      rewrite Hin. reflexivity.
Qed.

(** The Executor on an index below the length of a plan that is not empty:
    past the guard, the outcome is that of reading the plan at the index. *)
Lemma executor_node_past_guard (llm : nat -> list BaseMessage -> str)
  (state : AgentState) (calls : nat) :
  current_step_index state < Z.of_nat (length (plan state)) ->
  plan state <> [] ->
  executor_node llm state calls =
  match getitem (plan state) (current_step_index state) with
  | Ok step_text =>
      let explanation :=
        llm calls (executor_prompt (user_goal state) step_text) in
      Ok ({| upd_messages :=
               Some [HumanMessage explanation (Some (py "Executor"))];
             upd_user_goal := None;
             upd_plan := None;
             upd_current_step_index := Some (current_step_index state + 1);
             upd_execution_log :=
               Some (execution_log state
                     ++ [log_entry (current_step_index state) step_text
                           explanation]);
             upd_next_step := None;
             upd_status := Some (py "executing") |}, S calls)
  | Raise e => Raise e
  end.
Proof.
  intros Hlt Hne. unfold executor_node.
  assert (Htruthy : truthy (plan state) = true)
    by (destruct (plan state); [contradiction | reflexivity]).
  assert (Hge : (current_step_index state >=? Z.of_nat (length (plan state)))
                = false) by (rewrite Z.geb_leb; apply Z.leb_gt; lia).
  rewrite Htruthy, Hge. cbn [negb orb].
  destruct (getitem (plan state) (current_step_index state)); reflexivity.
Qed.

(** X5. The Executor's guard checks the index from above only. With an index
    [i] from [-len(plan)] up to [len(plan) - 1] the Executor executes the
    step the plan holds at [i], counted from the end when [i] is negative:
    one model call on that step, one message tagged Executor, the log
    extended by the entry "Step i+1: step" with the explanation, and the
    index [i + 1]. *)
Theorem executor_node_executes_indexed_step
  (llm : nat -> list BaseMessage -> str) (state : AgentState) (calls : nat) :
  - Z.of_nat (length (plan state)) <= current_step_index state
    < Z.of_nat (length (plan state)) ->
  exists step_text,
    nth_error (plan state) (position (plan state) (current_step_index state))
      = Some step_text /\
    executor_node llm state calls =
      Ok ({| upd_messages :=
               Some [HumanMessage
                       (llm calls (executor_prompt (user_goal state) step_text))
                       (Some (py "Executor"))];
             upd_user_goal := None;
             upd_plan := None;
             upd_current_step_index := Some (current_step_index state + 1);
             upd_execution_log :=
               Some (execution_log state
                     ++ [py "Step " ++ str_of_int (current_step_index state + 1)
                         ++ py ": " ++ step_text ++ LF
                         ++ llm calls (executor_prompt (user_goal state)
                                         step_text)]);
             upd_next_step := None;
             upd_status := Some (py "executing") |}, S calls).
Proof.
  intros Hidx.
  assert (Hne : plan state <> [])
    by (destruct (plan state); [simpl in Hidx; lia | discriminate]).
  rewrite (executor_node_past_guard llm state calls) by (lia || exact Hne).
  destruct (proj1 (getitem_spec (plan state) (current_step_index state)) Hidx)
    as (step_text & Hnth & ->).
  exists step_text. split; [exact Hnth | reflexivity].
Qed.

(** X5, witness: index -1 on a plan of two steps executes the last step,
    logs it as "Step 0" and writes index 0. *)
Lemma executor_node_executes_indexed_step_witness :
  - Z.of_nat (length (plan (with_index (-1))))
    <= current_step_index (with_index (-1))
    < Z.of_nat (length (plan (with_index (-1)))) /\
  exists step_text,
    nth_error (plan (with_index (-1)))
      (position (plan (with_index (-1))) (current_step_index (with_index (-1))))
      = Some step_text /\
    executor_node mock_llm (with_index (-1)) 1 =
      Ok ({| upd_messages :=
               Some [HumanMessage
                       (mock_llm 1 (executor_prompt
                                      (user_goal (with_index (-1))) step_text))
                       (Some (py "Executor"))];
             upd_user_goal := None;
             upd_plan := None;
             upd_current_step_index :=
               Some (current_step_index (with_index (-1)) + 1);
             upd_execution_log :=
               Some (execution_log (with_index (-1))
                     ++ [py "Step "
                         ++ str_of_int (current_step_index (with_index (-1)) + 1)
                         ++ py ": " ++ step_text ++ LF
                         ++ mock_llm 1 (executor_prompt
                                          (user_goal (with_index (-1)))
                                          step_text)]);
             upd_next_step := None;
             upd_status := Some (py "executing") |}, 2%nat).
Proof.
  assert (H : - Z.of_nat (length (plan (with_index (-1))))
              <= current_step_index (with_index (-1))
              < Z.of_nat (length (plan (with_index (-1))))) by (simpl; lia).
  split; [exact H|].
  exact (executor_node_executes_indexed_step mock_llm (with_index (-1)) 1 H).
Defined.

(** X6. With a plan that is not empty and an index below [-len(plan)], the
    Executor passes its guard and fails on reading the plan: it raises
    [IndexError], before any model call. *)
Theorem executor_node_index_error (llm : nat -> list BaseMessage -> str)
  (state : AgentState) (calls : nat) :
  plan state <> [] ->
  current_step_index state < - Z.of_nat (length (plan state)) ->
  executor_node llm state calls = Raise IndexError /\
  superstep llm Executor
    {| pending := Goto Executor; values := state; llm_calls := calls |}
    = Raise IndexError.
Proof.
  intros Hne Hlow.
  assert (Hexec : executor_node llm state calls = Raise IndexError).
  { rewrite (executor_node_past_guard llm state calls) by (lia || exact Hne).
    rewrite (proj2 (getitem_spec (plan state) (current_step_index state)))
      by (left; exact Hlow).
    reflexivity. }
  split; [exact Hexec|].
  unfold superstep. cbn [invoke values llm_calls]. rewrite Hexec. reflexivity.
Qed.

(** X6, witness: index -3 on a plan of two steps. *)
Lemma executor_node_index_error_witness :
  plan (with_index (-3)) <> [] /\
  current_step_index (with_index (-3))
    < - Z.of_nat (length (plan (with_index (-3)))) /\
  executor_node mock_llm (with_index (-3)) 0 = Raise IndexError /\
  superstep mock_llm Executor
    {| pending := Goto Executor; values := with_index (-3); llm_calls := 0 |}
    = Raise IndexError.
Proof.
  assert (H1 : plan (with_index (-3)) <> []) by discriminate.
  assert (H2 : current_step_index (with_index (-3))
               < - Z.of_nat (length (plan (with_index (-3))))) by (simpl; lia).
  split; [exact H1|]. split; [exact H2|].
  exact (executor_node_index_error mock_llm (with_index (-3)) 0 H1 H2).
Defined.

(** ** Single steps of the graph *)

(** X7. A Supervisor turn right after a Supervisor turn changes nothing: the
    decision depends on the messages, the plan and the index only, which the
    first turn left as they were. *)
Theorem supervisor_turn_idempotent (state : AgentState) :
  let state' := merge state (supervisor_node state) in
  supervisor_node state' = supervisor_node state /\
  merge state' (supervisor_node state') = state'.
Proof.
  cbv zeta.
  assert (Hroute : route_spec (merge state (supervisor_node state))
                   = route_spec state)
    by (rewrite supervisor_turn_state; reflexivity).
  split.
  - rewrite (supervisor_node_returns (merge state (supervisor_node state))),
      Hroute.
    symmetry. apply supervisor_node_returns.
  - rewrite (supervisor_turn_state (merge state (supervisor_node state))),
      Hroute.
    rewrite supervisor_turn_state. reflexivity.
Qed.

Lemma conditional_edge_unknown (key : str) :
  conditional_edge key = Raise KeyError <->
  key <> py "Planner" /\ key <> py "Executor" /\ key <> py "FINISH".
Proof.
  unfold conditional_edge.
  destruct (str_eqb key (py "Planner")) eqn:H1;
    [apply str_eqb_eq in H1; split; [discriminate | intros (H & _); contradiction]|].
  destruct (str_eqb key (py "Executor")) eqn:H2;
    [apply str_eqb_eq in H2;
     split; [discriminate | intros (_ & H & _); contradiction]|].
  destruct (str_eqb key (py "FINISH")) eqn:H3;
    [apply str_eqb_eq in H3;
     split; [discriminate | intros (_ & _ & H); contradiction]|].
  split; [|reflexivity]. intros _.
  repeat split; intros Heq; apply str_eqb_eq in Heq; congruence.
Qed.

(** X8. The conditional edge raises [KeyError] for every key other than
    "Planner", "Executor" and "FINISH", the initial [""] among them; the
    Supervisor writes one of the three whatever the state, so that a
    Supervisor step never fails, calls no model and leads to an agent or to
    [END]. *)
Theorem supervisor_step_never_fails (llm : nat -> list BaseMessage -> str) :
  (forall key,
     conditional_edge key = Raise KeyError <->
     key <> py "Planner" /\ key <> py "Executor" /\ key <> py "FINISH") /\
  forall c, exists target,
    superstep llm Supervisor c =
      Ok {| pending := target;
            values := merge (values c) (supervisor_node (values c));
            llm_calls := llm_calls c |} /\
    target <> Goto Supervisor.
Proof.
  split; [exact conditional_edge_unknown|].
  intros c. rewrite superstep_supervisor. eexists. split; [reflexivity|].
  destruct (route_spec (values c)); discriminate.
Qed.

(** X9. Whatever the configuration, a step of the graph that succeeds only
    adds: at most one message, tagged with the agent that ran, behind the
    earlier ones, none on a Supervisor step; at most one log entry behind
    the earlier ones, and only on an Executor step; at most one model call,
    none on a Supervisor step. The plan and the goal are left as they were
    by every node but the Planner. *)
Theorem superstep_only_adds (llm : nat -> list BaseMessage -> str)
  (n : Node) (c c' : Config) :
  superstep llm n c = Ok c' ->
  (exists new,
     messages (values c') = messages (values c) ++ new /\
     (length new <= 1)%nat /\
     (forall m, In m new ->
        name m = Some (node_name n)) /\
     (n = Supervisor -> new = [])) /\
  (exists new,
     execution_log (values c') = execution_log (values c) ++ new /\
     (length new <= 1)%nat /\
     (n <> Executor -> new = [])) /\
  (n <> Planner ->
   plan (values c') = plan (values c) /\
   user_goal (values c') = user_goal (values c)) /\
  (llm_calls c <= llm_calls c' <= S (llm_calls c))%nat /\
  (n = Supervisor -> llm_calls c' = llm_calls c).
Proof.
  destruct n.
  - rewrite superstep_supervisor. intros H. injection H as <-.
    cbn [values llm_calls]. rewrite supervisor_turn_state.
    cbn [messages execution_log plan user_goal].
    split; [exists []; rewrite app_nil_r; repeat split;
            [simpl; lia | intros m []]|].
    split; [exists []; rewrite app_nil_r; repeat split; simpl; lia|].
    repeat split; lia.
  - rewrite superstep_planner. intros H. injection H as <-.
    cbn [values llm_calls]. unfold merge, add_messages, planner_node, last_value.
    cbn [fst upd_messages upd_execution_log messages execution_log].
    split; [eexists; split; [reflexivity|]; repeat split;
            [simpl; lia | intros m [<- | []]; reflexivity | discriminate]|].
    split; [exists []; rewrite app_nil_r; repeat split; simpl; lia|].
    split; [intros Hn; contradiction Hn; reflexivity|].
    split; [lia | discriminate].
  - unfold superstep. cbn [invoke]. unfold executor_node.
    destruct (negb (truthy (plan (values c)))
              || (current_step_index (values c)
                    >=? Z.of_nat (length (plan (values c))))).
    + cbn [bind fst snd successor]. intros H. injection H as <-.
      cbn [values llm_calls]. unfold merge, nothing_to_execute, last_value.
      cbn [upd_messages upd_execution_log upd_plan upd_user_goal
           messages execution_log plan user_goal].
      split; [exists []; rewrite app_nil_r; repeat split;
              [simpl; lia | intros m []]|].
      split; [exists []; rewrite app_nil_r; repeat split; simpl; lia|].
      repeat split; try lia; try discriminate.
    + destruct (getitem (plan (values c)) (current_step_index (values c)))
        as [step_text|e]; [|discriminate].
      cbn [bind fst snd successor]. intros H. injection H as <-.
      cbn [values llm_calls]. unfold merge, add_messages, last_value.
      cbn [upd_messages upd_execution_log upd_plan upd_user_goal
           messages execution_log plan user_goal].
      split; [eexists; split; [reflexivity|]; repeat split;
              [simpl; lia | intros m [<- | []]; reflexivity | discriminate]|].
      split; [eexists; split; [reflexivity|]; split;
              [simpl; lia | intros Hn; contradiction Hn; reflexivity]|].
      repeat split; try lia; try discriminate.
Qed.

(** X9, witness: the Planner step of the scenario. *)
Lemma superstep_only_adds_witness :
  exists c',
    superstep mock_llm Planner
      {| pending := Goto Planner;
         values := initial_state scenario_goal;
         llm_calls := 0 |} = Ok c' /\
    (exists new,
       messages (values c') = messages (initial_state scenario_goal) ++ new /\
       (length new <= 1)%nat /\
       (forall m, In m new -> name m = Some (node_name Planner)) /\
       (Planner = Supervisor -> new = [])) /\
    (exists new,
       execution_log (values c')
         = execution_log (initial_state scenario_goal) ++ new /\
       (length new <= 1)%nat /\
       (Planner <> Executor -> new = [])).
Proof.
  eexists. split; [reflexivity|].
  pose proof (superstep_only_adds mock_llm Planner
                {| pending := Goto Planner;
                   values := initial_state scenario_goal;
                   llm_calls := 0 |} _ eq_refl) as (Hmsg & Hlog & _).
  split; [exact Hmsg | exact Hlog].
Defined.

(** ** Runs from other states *)

Lemma executor_node_guard (llm : nat -> list BaseMessage -> str)
  (state : AgentState) (calls : nat) :
  plan state = [] \/ current_step_index state >= Z.of_nat (length (plan state)) ->
  executor_node llm state calls = Ok (nothing_to_execute, calls).
Proof.
  intros Hguard. unfold executor_node. destruct Hguard as [Hempty | Hdone].
  - rewrite Hempty. reflexivity.
  - assert (Hge : (current_step_index state >=? Z.of_nat (length (plan state)))
                  = true) by (rewrite Z.geb_leb; apply Z.leb_le; lia).
    rewrite Hge, orb_true_r. reflexivity.
Qed.

(** With the Planner's message last and no step to execute, Supervisor and
    Executor hand the run to each other until the budget is spent. *)
Lemma out_of_turn_loop (llm : nat -> list BaseMessage -> str) (limit : nat) :
  forall c,
    pending c = Goto Supervisor \/ pending c = Goto Executor ->
    tagged (py "Planner") (values c) ->
    plan (values c) = [] \/
    current_step_index (values c) >= Z.of_nat (length (plan (values c))) ->
    snd (run_graph llm limit c) = Raise GraphRecursionError /\
    length (fst (run_graph llm limit c)) = limit /\
    ~ In Planner (fst (run_graph llm limit c)).
Proof.
  induction limit as [|limit IH]; intros c Hp Htag Hguard.
  - simpl. repeat split; intros [].
  - destruct Hp as [Hp | Hp]; cbn [run_graph]; rewrite Hp.
    + rewrite superstep_supervisor, (route_spec_after_planner _ Htag).
      match goal with |- context [run_graph llm limit ?c1] =>
        specialize (IH c1) end.
      cbn [pending values] in IH. rewrite supervisor_turn_state in IH.
      destruct IH as (Hr & Hlen & Hno);
        [right; reflexivity | exact Htag | exact Hguard|].
      rewrite supervisor_turn_state.
      destruct (run_graph llm limit _) as [ns r]. cbn [fst snd] in *.
      repeat split; [exact Hr | simpl; lia | intros [H | H];
                                              [discriminate | exact (Hno H)]].
    + unfold superstep. cbn [invoke].
      rewrite (executor_node_guard llm _ _ Hguard).
      cbn [bind fst snd successor].
      match goal with |- context [run_graph llm limit ?c1] =>
        specialize (IH c1) end.
      cbn [pending values] in IH.
      destruct IH as (Hr & Hlen & Hno);
        [left; reflexivity | exact Htag | exact Hguard|].
      destruct (run_graph llm limit _) as [ns r]. cbn [fst snd] in *.
      repeat split; [exact Hr | simpl; lia | intros [H | H];
                                              [discriminate | exact (Hno H)]].
Qed.

(** X10. The Executor's guard does not end a run. From a state whose last
    message is tagged Planner and whose plan is empty or used up, the
    Supervisor sends the run to the Executor, the Executor returns
    "nothing_to_execute" without adding a message, and so on: whatever the
    budget, the run spends it all, never calls the Planner and ends with
    [GraphRecursionError]. *)
Theorem out_of_turn_run_never_ends (llm : nat -> list BaseMessage -> str)
  (limit : nat) (state : AgentState) (calls : nat) :
  tagged (py "Planner") state ->
  plan state = [] \/ current_step_index state >= Z.of_nat (length (plan state)) ->
  let run := run_graph llm limit
               {| pending := Goto Supervisor; values := state;
                  llm_calls := calls |} in
  snd run = Raise GraphRecursionError /\
  length (fst run) = limit /\
  ~ In Planner (fst run).
Proof.
  intros Htag Hguard. cbv zeta.
  apply out_of_turn_loop; [left; reflexivity | exact Htag | exact Hguard].
Qed.

(** X10, witness: the Planner's message last and an empty plan, with the
    runner's usual budget of 25 steps. *)
Lemma out_of_turn_run_never_ends_witness :
  tagged (py "Planner") planned_nothing /\
  (plan planned_nothing = [] \/
   current_step_index planned_nothing
     >= Z.of_nat (length (plan planned_nothing))) /\
  snd (run_graph mock_llm 25
         {| pending := Goto Supervisor; values := planned_nothing;
            llm_calls := 0 |}) = Raise GraphRecursionError /\
  length (fst (run_graph mock_llm 25
                 {| pending := Goto Supervisor; values := planned_nothing;
                    llm_calls := 0 |})) = 25%nat /\
  ~ In Planner (fst (run_graph mock_llm 25
                       {| pending := Goto Supervisor; values := planned_nothing;
                          llm_calls := 0 |})).
Proof.
  assert (H1 : tagged (py "Planner") planned_nothing) by reflexivity.
  assert (H2 : plan planned_nothing = [] \/
               current_step_index planned_nothing
                 >= Z.of_nat (length (plan planned_nothing)))
    by (left; reflexivity).
  split; [exact H1|]. split; [exact H2|].
  exact (out_of_turn_run_never_ends mock_llm 25 planned_nothing 0 H1 H2).
Defined.

Lemma route_spec_finish (state : AgentState) (tag : str) :
  last_name_of (messages state) = Some tag ->
  tag <> [] -> tag <> py "Planner" ->
  tag <> py "Executor" \/
  current_step_index state >= Z.of_nat (length (plan state)) ->
  route_spec state = Finish.
Proof.
  unfold last_name_of, route_spec, author_tag.
  destruct (last_or_none (messages state)) as [last|]; [|discriminate].
  intros -> Hne Hplanner Hexecutor.
  destruct tag as [|c tag]; [contradiction|].
  destruct (str_eqb (c :: tag) (py "Planner")) eqn:H1;
    [apply str_eqb_eq in H1; contradiction|].
  destruct (str_eqb (c :: tag) (py "Executor")) eqn:H2; [|reflexivity].
  apply str_eqb_eq in H2. destruct Hexecutor as [H | Hdone]; [contradiction|].
  destruct (Z.ltb_spec (current_step_index state)
              (Z.of_nat (length (plan state)))); [lia | reflexivity].
Qed.

(** X11. From a state whose last message carries a tag other than Planner,
    and other than Executor unless the plan is used up, the graph ends after
    one Supervisor turn, given a recursion limit of at least two (the turn,
    and the round that sees the run has ended): no agent runs, no model call
    is made, and the state returned differs from the state given in
    [next_step] and [status] only. With a limit of one the Supervisor turn
    is made and the runner then stops the run. *)
Theorem foreign_tag_run_finishes (llm : nat -> list BaseMessage -> str)
  (limit : nat) (state : AgentState) (calls : nat) (tag : str) :
  last_name_of (messages state) = Some tag ->
  tag <> [] -> tag <> py "Planner" ->
  tag <> py "Executor" \/
  current_step_index state >= Z.of_nat (length (plan state)) ->
  graph_stream llm (S (S limit))
    {| pending := Goto Supervisor; values := state; llm_calls := calls |}
  = ([Supervisor],
     Ok {| pending := END;
           values := {| messages := messages state;
                        user_goal := user_goal state;
                        plan := plan state;
                        current_step_index := current_step_index state;
                        execution_log := execution_log state;
                        next_step := py "FINISH";
                        status := py "supervising" |};
           llm_calls := calls |}) /\
  graph_stream llm 1
    {| pending := Goto Supervisor; values := state; llm_calls := calls |}
  = ([Supervisor], Raise GraphRecursionError).
Proof.
  intros Hlast Hne Hplanner Hexecutor.
  cbn [graph_stream run_graph pending]. rewrite superstep_supervisor.
  cbn [values llm_calls].
  rewrite supervisor_turn_state,
    (route_spec_finish state tag Hlast Hne Hplanner Hexecutor).
  split; reflexivity.
Qed.

(** X11, witness: a last message tagged "QA". *)
Lemma foreign_tag_run_finishes_witness :
  graph_stream mock_llm 25
    {| pending := Goto Supervisor; values := foreign_tag; llm_calls := 0 |}
  = ([Supervisor],
     Ok {| pending := END;
           values := {| messages := messages foreign_tag;
                        user_goal := user_goal foreign_tag;
                        plan := plan foreign_tag;
                        current_step_index := current_step_index foreign_tag;
                        execution_log := execution_log foreign_tag;
                        next_step := py "FINISH";
                        status := py "supervising" |};
           llm_calls := 0 |}) /\
  graph_stream mock_llm 1
    {| pending := Goto Supervisor; values := foreign_tag; llm_calls := 0 |}
  = ([Supervisor], Raise GraphRecursionError).
Proof.
  apply (foreign_tag_run_finishes mock_llm 23 foreign_tag 0 (py "QA"));
    [reflexivity | discriminate | discriminate | left; discriminate].
Defined.

(** ** What a run records *)

Lemma expected_log_snoc (llm : nat -> list BaseMessage -> str)
  (goal : str) (plan : list str) (k : nat) :
  expected_log llm goal plan (S k) =
  expected_log llm goal plan k
  ++ [log_entry (Z.of_nat k) (nth k plan [])
        (llm (S k) (executor_prompt goal (nth k plan [])))].
Proof. unfold expected_log. rewrite seq_S, map_app. reflexivity. Qed.

Lemma reachable_record (llm : nat -> list BaseMessage -> str)
  (goal : str) (ns : list Node) (c : Config) :
  reachable llm goal ns c -> run_record llm goal ns c.
Proof.
  induction 1 as [|ns c n c' Hreach IH Hp Hstep].
  - unfold run_record. cbn. repeat split. exists []. split; reflexivity.
  - pose proof (reachable_invariant llm goal ns c Hreach) as Hinv.
    unfold run_invariant in Hinv. rewrite Hp in Hinv. cbv zeta in Hinv.
    destruct IH as (Hgoal & (rest & Hmsgs & Hrest) & Hcalls & Hlog & _).
    destruct n.
    + rewrite superstep_supervisor in Hstep. injection Hstep as <-.
      unfold run_record. cbn [values llm_calls pending].
      rewrite supervisor_turn_state, planner_turns_snoc, executor_turns_snoc.
      cbn [messages user_goal plan execution_log status next_step].
      rewrite !Nat.add_0_r.
      split; [exact Hgoal|].
      split; [exists rest; split; assumption|].
      split; [exact Hcalls|]. split; [exact Hlog|].
      rewrite conditional_edge_decision.
      destruct (route_spec (values c)); split; reflexivity.
    + destruct Hinv as (-> & Hval & Hzero).
      rewrite superstep_planner in Hstep. injection Hstep as <-.
      unfold run_record. cbn [values llm_calls pending].
      rewrite Hval, Hzero.
      unfold merge, add_messages, planner_node, last_value.
      cbn [fst upd_messages upd_user_goal upd_plan upd_execution_log
           messages user_goal plan execution_log].
      split; [|repeat split].
      * unfold planner_goal, merge, last_value.
        cbn [user_goal messages upd_user_goal upd_messages supervisor_node
             initial_state].
        destruct goal; reflexivity.
      * eexists. cbn [initial_state messages app]. split; reflexivity.
    + destruct Hinv as ((Hplan & Hpt & Het & Hlen & Hle) & _ & Hlt).
      assert (Hne : plan (values c) <> [])
        by (destruct (plan (values c)); [simpl in Hlt; lia | discriminate]).
      assert (Hidx : - Z.of_nat (length (plan (values c)))
                     <= current_step_index (values c)
                     < Z.of_nat (length (plan (values c)))) by lia.
      destruct (proj1 (getitem_spec (plan (values c))
                         (current_step_index (values c))) Hidx)
        as (step_text & Hnth & Hget).
      unfold superstep in Hstep. cbn [invoke] in Hstep.
      rewrite (executor_node_past_guard llm (values c) (llm_calls c) Hlt Hne),
        Hget in Hstep.
      cbn [bind fst snd successor] in Hstep. injection Hstep as <-.
      unfold run_record. cbn [values llm_calls pending].
      unfold merge, add_messages, last_value.
      cbn [upd_messages upd_user_goal upd_plan upd_execution_log
           messages user_goal plan execution_log].
      rewrite planner_turns_snoc, executor_turns_snoc, Nat.add_0_r.
      split; [exact Hgoal|].
      split; [exists (rest ++ [HumanMessage
                                 (llm (llm_calls c)
                                    (executor_prompt (user_goal (values c))
                                       step_text))
                                 (Some (py "Executor"))]);
              rewrite Hmsgs, length_app; split; [reflexivity | simpl; lia]|].
      split; [lia|]. split; [|exact I].
      rewrite length_app. cbn [length]. rewrite Nat.add_1_r, expected_log_snoc.
      rewrite <- Hlog. f_equal. f_equal.
      assert (Hpos : position (plan (values c)) (current_step_index (values c))
                     = length (execution_log (values c))).
      { unfold position.
        destruct (Z.ltb_spec (current_step_index (values c)) 0); lia. }
      rewrite Hpos in Hnth.
      assert (Htext : nth (length (execution_log (values c)))
                        (plan (values c)) [] = step_text)
        by (apply nth_error_nth; exact Hnth).
      assert (Hcall : llm_calls c = S (length (execution_log (values c))))
        by lia.
      rewrite Htext, Hgoal, Hcall, Hlen. reflexivity.
Qed.

(** X12. Along a run from the initial state [user_goal] stays the goal the
    run was started with, the caller's message stays the first message, and
    there is one more message and one more model call for each Planner or
    Executor turn so far, none for the Supervisor turns. *)
Theorem run_goal_messages_calls (llm : nat -> list BaseMessage -> str)
  (goal : str) (ns : list Node) (c : Config) :
  reachable llm goal ns c ->
  user_goal (values c) = goal /\
  (exists rest,
     messages (values c) = HumanMessage goal None :: rest /\
     length rest = (planner_turns ns + executor_turns ns)%nat) /\
  llm_calls c = (planner_turns ns + executor_turns ns)%nat.
Proof.
  intros Hreach.
  destruct (reachable_record llm goal ns c Hreach)
    as (Hgoal & Hmsgs & Hcalls & _).
  repeat split; assumption.
Qed.

(** X12, witness: the scenario after its first Executor turn. *)
Lemma run_goal_messages_calls_witness :
  user_goal (values scenario_mid) = scenario_goal /\
  (exists rest,
     messages (values scenario_mid) = HumanMessage scenario_goal None :: rest /\
     length rest
       = (planner_turns [Supervisor; Planner; Supervisor; Executor]
          + executor_turns [Supervisor; Planner; Supervisor; Executor])%nat) /\
  llm_calls scenario_mid
    = (planner_turns [Supervisor; Planner; Supervisor; Executor]
       + executor_turns [Supervisor; Planner; Supervisor; Executor])%nat.
Proof.
  exact (run_goal_messages_calls mock_llm scenario_goal
           [Supervisor; Planner; Supervisor; Executor] scenario_mid
           scenario_mid_reachable).
Defined.

Lemma invariant_log_length (llm : nat -> list BaseMessage -> str)
  (goal : str) (ns : list Node) (c : Config) :
  run_invariant llm goal ns c ->
  Z.of_nat (length (execution_log (values c))) = current_step_index (values c).
Proof.
  unfold run_invariant, planning_done. cbv zeta.
  destruct (pending c) as [[| |]|].
  - intros [[_ ->] | ((_ & _ & _ & Hlog & _) & _)]; [reflexivity | exact Hlog].
  - intros (_ & -> & _). reflexivity.
  - intros ((_ & _ & _ & Hlog & _) & _). exact Hlog.
  - intros ((_ & _ & _ & Hlog & _) & _). exact Hlog.
Qed.

(** X13. Along a run the log and the plan go together index by index: entry
    [i] of [execution_log] is "Step i+1: " followed by step [i] of the plan,
    a line feed and the model's answer to the prompt built from the goal and
    that step, its call number [i + 1] (the planning call is call 0). *)
Theorem run_log_follows_plan (llm : nat -> list BaseMessage -> str)
  (goal : str) (ns : list Node) (c : Config) (i : nat) :
  reachable llm goal ns c ->
  (i < length (execution_log (values c)))%nat ->
  exists step_text,
    nth_error (plan (values c)) i = Some step_text /\
    nth_error (execution_log (values c)) i =
      Some (py "Step " ++ str_of_int (Z.of_nat i + 1) ++ py ": " ++ step_text
            ++ LF ++ llm (S i) (executor_prompt goal step_text)).
Proof.
  intros Hreach Hi.
  pose proof (reachable_invariant llm goal ns c Hreach) as Hinv.
  pose proof (invariant_log_length llm goal ns c Hinv) as Hlen.
  pose proof (invariant_index_bounds llm goal ns c Hinv) as Hbounds.
  destruct (reachable_record llm goal ns c Hreach) as (_ & _ & _ & Hlog & _).
  destruct (nth_error (plan (values c)) i) as [step_text|] eqn:Hstep;
    [|apply nth_error_None in Hstep; lia].
  exists step_text. split; [reflexivity|].
  rewrite Hlog. unfold expected_log.
  rewrite nth_error_map, nth_error_seq.
  destruct (Nat.ltb_spec i (length (execution_log (values c)))); [|lia].
  assert (Htext : nth i (plan (values c)) [] = step_text)
    by (apply nth_error_nth; exact Hstep).
  cbn [option_map Nat.add]. rewrite Htext. reflexivity.
Qed.

(** X13, witness: the first entry of the scenario's log. *)
Lemma run_log_follows_plan_witness :
  (0 < length (execution_log (values scenario_mid)))%nat /\
  exists step_text,
    nth_error (plan (values scenario_mid)) 0 = Some step_text /\
    nth_error (execution_log (values scenario_mid)) 0 =
      Some (py "Step " ++ str_of_int (Z.of_nat 0 + 1) ++ py ": " ++ step_text
            ++ LF ++ mock_llm 1 (executor_prompt scenario_goal step_text)).
Proof.
  assert (H : (0 < length (execution_log (values scenario_mid)))%nat)
    by (simpl; lia).
  split; [exact H|].
  exact (run_log_follows_plan mock_llm scenario_goal
           [Supervisor; Planner; Supervisor; Executor] scenario_mid 0
           scenario_mid_reachable H).
Defined.

(** ** Complete runs *)

Lemma nodes_count (ns : list Node) :
  length ns = (decisions ns + planner_turns ns + executor_turns ns)%nat.
Proof.
  unfold decisions, planner_turns, executor_turns.
  induction ns as [|n ns IH]; [reflexivity|].
  destruct n; cbn [filter length]; lia.
Qed.

Lemma conditional_edge_END (key : str) :
  conditional_edge key = Ok END -> key = py "FINISH".
Proof.
  unfold conditional_edge.
  destruct (str_eqb key (py "Planner")); [discriminate|].
  destruct (str_eqb key (py "Executor")); [discriminate|].
  destruct (str_eqb key (py "FINISH")) eqn:H; [|discriminate].
  intros _. apply str_eqb_eq. exact H.
Qed.

(** X14. Given a recursion limit of at least [2 * len(plan) + 4], a run
    from the initial state reaches [END] after exactly [2 * len(plan) + 3]
    steps: one Planner turn, [len(plan)] Executor turns and [len(plan) + 1]
    model calls. The state it returns holds the goal, the Planner's plan,
    the index at [len(plan)], one log entry for each step of the plan,
    [len(plan) + 2] messages, "FINISH" as [next_step] and "supervising" as
    [status]. *)
Theorem complete_run (llm : nat -> list BaseMessage -> str)
  (goal : str) (limit : nat) :
  let steps := planned_steps llm goal in
  let run := graph_stream llm limit (initial_config goal) in
  (2 * length steps + 4 <= limit)%nat ->
  exists c,
    snd run = Ok c /\
    pending c = END /\
    length (fst run) = (2 * length steps + 3)%nat /\
    planner_turns (fst run) = 1%nat /\
    executor_turns (fst run) = length steps /\
    llm_calls c = S (length steps) /\
    user_goal (values c) = goal /\
    plan (values c) = steps /\
    current_step_index (values c) = Z.of_nat (length steps) /\
    execution_log (values c) = expected_log llm goal steps (length steps) /\
    length (messages (values c)) = (length steps + 2)%nat /\
    next_step (values c) = py "FINISH" /\
    status (values c) = py "supervising".
Proof.
  cbv zeta. intros Hlimit.
  destruct limit as [|limit]; [lia|].
  change (graph_stream llm (S limit) (initial_config goal))
    with (run_graph llm (S limit) (initial_config goal)).
  destruct (run_graph_reachable llm goal (S limit) [] (initial_config goal)
              (reach_init llm goal)) as (c & Hreach & Hend).
  cbn [app] in Hreach.
  change (steps_left (length (planned_steps llm goal)) (initial_config goal))
    with (2 * length (planned_steps llm goal) + 3)%nat in Hend.
  destruct Hend as [(Hok & Hp & _) | [_ Hshort]]; [|lia].
  exists c. split; [exact Hok|]. split; [exact Hp|].
  pose proof (reachable_invariant llm goal _ c Hreach) as Hinv.
  destruct (reachable_record llm goal _ c Hreach)
    as (Hgoal & (rest & Hmsgs & Hrest) & Hcalls & Hlog & Hlast).
  unfold run_invariant in Hinv. rewrite Hp in Hinv, Hlast. cbv zeta in Hinv.
  destruct Hinv as ((Hplan & Hpt & Het & Hlen & _) & Hdec & Hidx & _).
  destruct Hlast as [Hstatus Hedge].
  rewrite Hplan in Hidx.
  assert (Hturns : executor_turns
                     (fst (run_graph llm (S limit) (initial_config goal)))
                   = length (planned_steps llm goal)) by lia.
  assert (Hloglen : length (execution_log (values c))
                    = length (planned_steps llm goal)) by lia.
  split; [rewrite nodes_count; lia|].
  split; [exact Hpt|]. split; [exact Hturns|]. split; [lia|].
  split; [exact Hgoal|]. split; [exact Hplan|]. split; [exact Hidx|].
  split; [rewrite Hlog, Hplan, Hloglen; reflexivity|].
  split; [rewrite Hmsgs; simpl; lia|].
  split; [exact (conditional_edge_END _ Hedge) | exact Hstatus].
Qed.

(** X14, witness: the scenario with a recursion limit of 25. *)
Lemma complete_run_witness :
  exists c,
    snd (graph_stream mock_llm 25 (initial_config scenario_goal)) = Ok c /\
    pending c = END /\
    length (fst (graph_stream mock_llm 25 (initial_config scenario_goal)))
      = (2 * length (planned_steps mock_llm scenario_goal) + 3)%nat /\
    llm_calls c = S (length (planned_steps mock_llm scenario_goal)) /\
    plan (values c) = planned_steps mock_llm scenario_goal /\
    next_step (values c) = py "FINISH".
Proof.
  assert (H : (2 * length (planned_steps mock_llm scenario_goal) + 4 <= 25)%nat)
    by (vm_compute; lia).
  destruct (complete_run mock_llm scenario_goal 25 H)
    as (c & Hok & Hp & Hlen & _ & _ & Hcalls & _ & Hplan & _ & _ & _ & Hnext & _).
  exists c. repeat split; assumption.
Defined.

(** ** tools.py *)

Lemma dropwhile_all {A} (p : A -> bool) (pad l : list A) :
  forallb p pad = true -> dropwhile p (pad ++ l) = dropwhile p l.
Proof.
  induction pad as [|x pad IH]; [reflexivity|]. cbn [forallb app dropwhile].
  intros H. apply andb_true_iff in H as [-> Hpad]. exact (IH Hpad).
Qed.

Lemma dropwhile_stop {A} (p : A -> bool) (l tail : list A) :
  dropwhile p l <> [] -> dropwhile p (l ++ tail) = dropwhile p l ++ tail.
Proof.
  induction l as [|x l IH]; cbn [dropwhile app]; [contradiction|].
  destruct (p x); [exact IH | reflexivity].
Qed.

(** Whitespace around a string does not change what stripping makes of
    it. *)
Lemma strip_padding (pad1 s pad2 : str) :
  forallb Py_UNICODE_ISSPACE pad1 = true ->
  forallb Py_UNICODE_ISSPACE pad2 = true ->
  strip (pad1 ++ s ++ pad2) = strip s.
Proof.
  intros H1 H2. unfold strip, rstrip, lstrip.
  rewrite (dropwhile_all _ pad1 _ H1).
  destruct (dropwhile Py_UNICODE_ISSPACE s) as [|c t] eqn:Hs.
  - destruct (dropwhile_split Py_UNICODE_ISSPACE s) as (pre & Heq & Hpre).
    rewrite Hs, app_nil_r in Heq. subst pre.
    rewrite (dropwhile_all _ s pad2 Hpre).
    destruct (dropwhile_split Py_UNICODE_ISSPACE pad2) as (pre & Heq & _).
    destruct (dropwhile Py_UNICODE_ISSPACE pad2) as [|d u] eqn:Hd;
      [reflexivity|].
    pose proof (dropwhile_head _ _ _ _ Hd) as Hfalse.
    assert (Hin : In d pad2) by (rewrite Heq; apply in_or_app; right; left;
                                 reflexivity).
    rewrite forallb_forall in H2. rewrite (H2 d Hin) in Hfalse. discriminate.
  - rewrite dropwhile_stop by (rewrite Hs; discriminate).
    rewrite Hs, rev_app_distr.
    rewrite dropwhile_all; [reflexivity|].
    apply forallb_forall. intros x Hx. apply in_rev in Hx.
    rewrite forallb_forall in H2. exact (H2 x Hx).
Qed.

(** X16. [summarize_step] answers "Plan step summary: " followed by the
    step without the whitespace around it: whitespace before and after a
    step does not change its summary. *)
Theorem summarize_step_ignores_padding (pad1 step pad2 : str) :
  forallb Py_UNICODE_ISSPACE pad1 = true ->
  forallb Py_UNICODE_ISSPACE pad2 = true ->
  summarize_step (pad1 ++ step ++ pad2) = summarize_step step /\
  summarize_step (strip step) = summarize_step step.
Proof.
  intros H1 H2. unfold summarize_step.
  rewrite (strip_padding pad1 step pad2 H1 H2), strip_idempotent.
  split; reflexivity.
Qed.

(** X16, witness: a step between two spaces and a line feed. *)
Lemma summarize_step_ignores_padding_witness :
  summarize_step (py "  " ++ py "Install agent" ++ LF)
    = summarize_step (py "Install agent") /\
  summarize_step (strip (py "Install agent"))
    = summarize_step (py "Install agent").
Proof.
  apply (summarize_step_ignores_padding (py "  ") (py "Install agent") LF);
    reflexivity.
Defined.

(** ** Steps and lines *)

(** Behind a space inside a clean line, stripping only removes leading
    whitespace. *)
Lemma strip_tail_of_clean (pre suf : str) :
  clean (pre ++ [32%N] ++ suf) = true -> exists gap, suf = gap ++ strip suf.
Proof.
  intros Hclean. destruct (clean_last _ Hclean) as (c & r & Hrev & Hc).
  assert (Hne : suf <> []).
  { intros ->. rewrite app_nil_r, rev_app_distr in Hrev. simpl in Hrev.
    injection Hrev as <- _. discriminate. }
  rewrite app_assoc in Hrev.
  destruct (rev_suffix _ _ _ _ Hrev Hne) as (r' & Hr').
  destruct (strip_last suf r' c Hr' Hc) as [-> _].
  destruct (dropwhile_split Py_UNICODE_ISSPACE suf) as (gap & Heq & _).
  exists gap. exact Heq.
Qed.

Lemma without_markers_suffix (line : str) :
  clean line = true -> exists front, line = front ++ without_markers line.
Proof.
  intros Hclean. unfold without_markers.
  assert (Hbullets : forall prefixes l,
    (forall prefix, In prefix prefixes -> exists x, prefix = [x; 32%N]) ->
    clean l = true ->
    let l' := fold_left
                (fun line prefix =>
                   if startswith line prefix
                   then strip (skipn (length prefix) line)
                   else line) prefixes l in
    clean l' = true /\ exists front, l = front ++ l').
  { induction prefixes as [|prefix prefixes IH]; intros l Hshape Hl.
    - split; [exact Hl | exists []; reflexivity].
    - cbn [fold_left].
      destruct (startswith l prefix) eqn:Hs.
      + destruct (Hshape prefix (or_introl eq_refl)) as (x & ->).
        pose proof (startswith_app _ _ Hs) as Heq.
        assert (Hl' : clean ([x] ++ [32%N] ++ skipn 2 l) = true)
          by (change (length [x; 32%N]) with 2%nat in Heq;
              cbn [app]; cbn [app] in Heq; rewrite <- Heq; exact Hl).
        destruct (strip_tail_of_clean _ _ Hl') as (gap & Hgap).
        destruct (IH (strip (skipn 2 l))
                    (fun q Hq => Hshape q (or_intror Hq))
                    (clean_after_space _ _ Hl')) as (Hc & front & Hfront).
        split; [exact Hc|].
        exists ([x; 32%N] ++ gap ++ front).
        change (length [x; 32%N]) with 2%nat in Heq.
        rewrite Heq at 1. rewrite Hgap at 1. cbv zeta in Hfront.
        rewrite Hfront at 1. rewrite <- !app_assoc. reflexivity.
      + exact (IH l (fun q Hq => Hshape q (or_intror Hq)) Hl). }
  cbv zeta.
  destruct (Hbullets bullet_prefixes line) as (Hl & front & Hfront);
    [intros prefix [<- | [<- | [<- | []]]]; eexists; reflexivity
    | exact Hclean |].
  cbv zeta in Hl, Hfront.
  set (l := fold_left _ bullet_prefixes line) in *.
  destruct (contains l (py ". ")) eqn:Hin; cbn [andb];
    [|exists front; exact Hfront].
  destruct (isdigit (nth 0 (split1 l (py ". ")) []));
    [|exists front; exact Hfront].
  unfold split1. destruct (partition l (py ". ")) as [[before after]|] eqn:Hp.
  - cbn [nth]. apply partition_app in Hp.
    assert (Hl' : clean ((before ++ [46%N]) ++ [32%N] ++ after) = true).
    { rewrite <- app_assoc. change ([46%N] ++ [32%N] ++ after)
        with (py ". " ++ after). rewrite <- Hp. exact Hl. }
    destruct (strip_tail_of_clean _ _ Hl') as (gap & Hgap).
    exists (front ++ before ++ py ". " ++ gap).
    rewrite Hfront at 1. rewrite Hp at 1. rewrite Hgap at 1.
    rewrite <- !app_assoc. reflexivity.
  - exfalso. destruct (contains_split1 l (py ". ") Hin) as (b & a & Hsplit).
    unfold split1 in Hsplit. rewrite Hp in Hsplit. discriminate.
Qed.

(** X17. The parser writes no text of its own: every step it returns is the
    end of a line of the text, the line taken without the whitespace around
    it. Markers are only ever removed from the front of a line. *)
Theorem parse_plan_steps_end_lines (text : str) (step : str) :
  In step (_parse_plan text) ->
  exists raw_line front,
    In raw_line (splitlines text) /\ strip raw_line = front ++ step.
Proof.
  rewrite _parse_plan_lines. intros Hin.
  apply in_map_iff in Hin as (line & <- & Hline).
  apply filter_In in Hline as [Hline Hne].
  apply in_map_iff in Hline as (raw & <- & Hraw).
  assert (Hclean : clean (strip raw) = true)
    by (apply strip_clean; destruct (strip raw); discriminate).
  destruct (without_markers_suffix _ Hclean) as (front & Hfront).
  exists raw, front. split; [exact Hraw | exact Hfront].
Qed.

(** X17, witness: the first step of the scenario's plan. *)
Lemma parse_plan_steps_end_lines_witness :
  exists raw_line front,
    In raw_line
       (splitlines (py "1. Install agent" ++ LF ++ py "2. Configure dashboards")) /\
    strip raw_line = front ++ py "Install agent".
Proof.
  apply (parse_plan_steps_end_lines
           (py "1. Install agent" ++ LF ++ py "2. Configure dashboards")).
  left. reflexivity.
Defined.

(** ** The conversation of a run *)

Lemma expected_messages_snoc (llm : nat -> list BaseMessage -> str)
  (goal : str) (plan : list str) (k : nat) :
  expected_messages llm goal plan (S k) =
  expected_messages llm goal plan k
  ++ [HumanMessage (llm (S k) (executor_prompt goal (nth k plan [])))
        (Some (py "Executor"))].
Proof.
  unfold expected_messages. rewrite seq_S, map_app. reflexivity.
Qed.

Lemma reachable_messages (llm : nat -> list BaseMessage -> str)
  (goal : str) (ns : list Node) (c : Config) :
  reachable llm goal ns c ->
  (planner_turns ns = 0%nat /\ messages (values c) = [HumanMessage goal None]) \/
  (planner_turns ns = 1%nat /\
   messages (values c) =
     expected_messages llm goal (plan (values c))
       (length (execution_log (values c)))).
Proof.
  induction 1 as [|ns c n c' Hreach IH Hp Hstep].
  - left. split; reflexivity.
  - pose proof (reachable_invariant llm goal ns c Hreach) as Hinv.
    destruct (reachable_record llm goal ns c Hreach)
      as (Hgoal & _ & Hcalls & _).
    unfold run_invariant in Hinv. rewrite Hp in Hinv. cbv zeta in Hinv.
    rewrite planner_turns_snoc. destruct n.
    + rewrite superstep_supervisor in Hstep. injection Hstep as <-.
      cbn [values]. rewrite supervisor_turn_state, Nat.add_0_r.
      cbn [messages plan execution_log]. exact IH.
    + destruct Hinv as (-> & Hval & Hzero).
      rewrite superstep_planner in Hstep. injection Hstep as <-.
      right. split; [reflexivity|]. cbn [values]. rewrite Hval, Hzero.
      unfold merge, add_messages, planner_node, last_value.
      cbn [fst upd_messages upd_execution_log upd_plan messages plan
           execution_log].
      unfold planner_goal, merge, last_value.
      cbn [user_goal messages upd_user_goal upd_messages supervisor_node
           initial_state].
      destruct goal; reflexivity.
    + destruct Hinv as ((Hplan & Hpt & Het & Hlen & Hle) & _ & Hlt).
      destruct IH as [[Hzero _] | [_ Hmsgs]]; [lia|].
      assert (Hne : plan (values c) <> [])
        by (destruct (plan (values c)); [simpl in Hlt; lia | discriminate]).
      assert (Hidx : - Z.of_nat (length (plan (values c)))
                     <= current_step_index (values c)
                     < Z.of_nat (length (plan (values c)))) by lia.
      destruct (proj1 (getitem_spec (plan (values c))
                         (current_step_index (values c))) Hidx)
        as (step_text & Hnth & Hget).
      unfold superstep in Hstep. cbn [invoke] in Hstep.
      rewrite (executor_node_past_guard llm (values c) (llm_calls c) Hlt Hne),
        Hget in Hstep.
      cbn [bind fst snd successor] in Hstep. injection Hstep as <-.
      right. split; [lia|]. cbn [values].
      unfold merge, add_messages, last_value.
      cbn [upd_messages upd_plan upd_execution_log messages plan
           execution_log].
      rewrite length_app. cbn [length].
      rewrite Nat.add_1_r, expected_messages_snoc, <- Hmsgs.
      assert (Hpos : position (plan (values c)) (current_step_index (values c))
                     = length (execution_log (values c))).
      { unfold position.
        destruct (Z.ltb_spec (current_step_index (values c)) 0); lia. }
      rewrite Hpos in Hnth.
      assert (Htext : nth (length (execution_log (values c)))
                        (plan (values c)) [] = step_text)
        by (apply nth_error_nth; exact Hnth).
      assert (Hcall : llm_calls c = S (length (execution_log (values c))))
        by lia.
      rewrite Htext, Hgoal, Hcall. reflexivity.
Qed.

(** X18. The conversation of a run is fixed by the goal, the model and the
    plan. Before the Planner turn it is the caller's message alone. From the
    Planner turn on it is the caller's message, then the model's answer to
    the planning call, tagged Planner, then, for each step executed so far
    and in the order of the plan, the model's answer to the call on that
    step, tagged Executor. *)
Theorem run_conversation (llm : nat -> list BaseMessage -> str)
  (goal : str) (ns : list Node) (c : Config) :
  reachable llm goal ns c ->
  (~ In Planner ns -> messages (values c) = [HumanMessage goal None]) /\
  (In Planner ns ->
   messages (values c) =
     HumanMessage goal None
     :: HumanMessage (llm O (planner_prompt goal)) (Some (py "Planner"))
     :: map (fun i =>
               HumanMessage
                 (llm (S i)
                    (executor_prompt goal (nth i (plan (values c)) [])))
                 (Some (py "Executor")))
            (seq 0 (length (execution_log (values c))))).
Proof.
  intros Hreach.
  destruct (reachable_messages llm goal ns c Hreach)
    as [[Hzero Hmsgs] | [Hone Hmsgs]].
  - split; [intros _; exact Hmsgs|].
    intros Hin. unfold planner_turns in Hzero.
    assert (Hfilter : In Planner
              (filter (fun n => match n with Planner => true | _ => false end)
                 ns)) by (apply filter_In; split; [exact Hin | reflexivity]).
    destruct (filter _ ns); [destruct Hfilter | discriminate].
  - split; [|intros _; exact Hmsgs].
    intros Hnot. contradiction Hnot.
    apply planner_turns_positive. lia.
Qed.

(** X18, witness: the scenario after its first Executor turn. *)
Lemma run_conversation_witness :
  In Planner [Supervisor; Planner; Supervisor; Executor] /\
  messages (values scenario_mid) =
    HumanMessage scenario_goal None
    :: HumanMessage (mock_llm O (planner_prompt scenario_goal))
         (Some (py "Planner"))
    :: map (fun i =>
              HumanMessage
                (mock_llm (S i)
                   (executor_prompt scenario_goal
                      (nth i (plan (values scenario_mid)) [])))
                (Some (py "Executor")))
           (seq 0 (length (execution_log (values scenario_mid)))).
Proof.
  assert (Hin : In Planner [Supervisor; Planner; Supervisor; Executor])
    by (right; left; reflexivity).
  split; [exact Hin|].
  exact (proj2 (run_conversation mock_llm scenario_goal
                  [Supervisor; Planner; Supervisor; Executor] scenario_mid
                  scenario_mid_reachable) Hin).
Defined.

(** X19. Along a run [next_step] names what comes next: whenever an agent or
    [END] is scheduled, the conditional edge maps [next_step] to exactly
    that, and [status] is "supervising", the Supervisor having been the
    last to write. *)
Theorem run_next_step_names_pending (llm : nat -> list BaseMessage -> str)
  (goal : str) (ns : list Node) (c : Config) :
  reachable llm goal ns c ->
  pending c <> Goto Supervisor ->
  conditional_edge (next_step (values c)) = Ok (pending c) /\
  status (values c) = py "supervising".
Proof.
  intros Hreach Hp.
  destruct (reachable_record llm goal ns c Hreach) as (_ & _ & _ & _ & Hlast).
  destruct (pending c) as [[| |]|]; [contradiction Hp; reflexivity | | |];
    destruct Hlast as [Hstatus Hedge]; split; assumption.
Qed.

(** X19, witness: the scenario at [END]. *)
Lemma run_next_step_names_pending_witness :
  conditional_edge (next_step scenario_final) = Ok END /\
  status scenario_final = py "supervising".
Proof.
  assert (Hreach : reachable mock_llm scenario_goal
                     [Supervisor; Planner; Supervisor; Executor; Supervisor;
                      Executor; Supervisor]
                     {| pending := END; values := scenario_final;
                        llm_calls := 3 |}).
  { destruct (run_graph_reachable mock_llm scenario_goal 8 []
                (initial_config scenario_goal)
                (reach_init mock_llm scenario_goal)) as (c & Hc & Hend).
    rewrite scenario_run_graph in Hc, Hend. cbn [fst snd app] in Hc, Hend.
    destruct Hend as [(Hok & _) | (Hraise & _)]; [|discriminate].
    injection Hok as <-. exact Hc. }
  assert (Hp : END <> Goto Supervisor) by discriminate.
  exact (run_next_step_names_pending mock_llm scenario_goal _ _ Hreach Hp).
Defined.
